(** * pytesmo validation framework: [Validation.calc]

    A shallow embedding of [pytesmo/validation_framework/validation.py].
    Python dictionaries are insertion-ordered association lists, exceptions
    are an explicit outcome type, and the method [calc] is a state-passing
    computation over the [Validation] object that also records every call
    it makes to a collaborator (grid, data manager, temporal matcher,
    result-name generator, scaling, metrics calculator). *)

From stdpp Require Import base list strings pretty.

Set Default Proof Using "Type".

(** ** Exceptions and outcomes *)

Inductive exn :=
  | KeyError
  | ValueError
  | IndexError
  | TypeError
  | AttributeError
  | OtherError (msg : string).

Inductive outcome (A : Type) :=
  | Raise (e : exn)
  | Return (a : A).
Arguments Raise {A} e.
Arguments Return {A} a.

Definition is_raise {A} (r : outcome A) : Prop :=
  match r with Raise _ => True | Return _ => False end.

Definition is_return {A} (r : outcome A) : Prop :=
  match r with Raise _ => False | Return _ => True end.

#[global] Instance outcome_ret : MRet outcome := λ A a, Return a.
#[global] Instance outcome_bind : MBind outcome := λ A B k m,
  match m with
  | Raise e => Raise e
  | Return a => k a
  end.

(** [o] when it holds a value, otherwise the exception [e]. *)
Definition or_raise {A} (e : exn) (o : option A) : outcome A :=
  match o with
  | Some a => Return a
  | None => Raise e
  end.

(** [t[i]] on a tuple or list. *)
Definition getidx {A} (l : list A) (i : nat) : outcome A :=
  or_raise IndexError (l !! i).

(** [for x in l: a = f(a, x)], stopping at the first exception. *)
Fixpoint foldO {A B} (f : A → B → outcome A) (a : A) (l : list B) : outcome A :=
  match l with
  | [] => Return a
  | x :: l' => a' ← f a x; foldO f a' l'
  end.

(** [[f(x) for x in l]], stopping at the first exception. *)
Fixpoint mapO {A B} (f : A → outcome B) (l : list A) : outcome (list B) :=
  match l with
  | [] => Return []
  | x :: l' => y ← f x; ys ← mapO f l'; Return (y :: ys)
  end.

(** ** Insertion-ordered dictionaries *)

Module OD.
Section ordered_dict.
Context {K V : Type} `{EqDecision K}.

(** [d.get(k)] *)
Fixpoint get (k : K) (d : list (K * V)) : option V :=
  match d with
  | [] => None
  | (k', v) :: d' => if decide (k = k') then Some v else get k d'
  end.

(** [d[k] = v]: an existing key keeps its place, a new one goes last. *)
Fixpoint set (k : K) (v : V) (d : list (K * V)) : list (K * V) :=
  match d with
  | [] => [(k, v)]
  | (k', v') :: d' =>
      if decide (k = k') then (k, v) :: d' else (k', v') :: set k v d'
  end.

(** [d.keys()], in iteration order. *)
Definition keys (d : list (K * V)) : list K := d.*1.

(** [k in d] *)
Definition mem (k : K) (d : list (K * V)) : bool :=
  match get k d with Some _ => true | None => false end.

(** [d[k]] *)
Definition getitem (k : K) (d : list (K * V)) : outcome V :=
  or_raise KeyError (get k d).

End ordered_dict.
End OD.

Abbreviation odict K V := (list (K * V)).

(** ** Data model *)

(** A result name: the (dataset, column) pairs a metrics calculator gets. *)
Abbreviation ResultName := (list (string * string)).

(** The key of a bucket of temporally matched data: dataset names. *)
Abbreviation DatasetKey := (list string).

(** What the collaborators work on and are not looked into by [calc]. *)
Class Host := {
  num : Type;       (* grid point indices, longitudes, latitudes *)
  series : Type;    (* the values of one DataFrame column *)
  table : Type;     (* what the data manager reads for one dataset *)
  dsdict : Type;    (* [data_manager.ds_dict] *)
  scalar : Type;    (* an element of a numpy array *)
  dtype : Type;     (* a numpy element type *)
}.

Section model.
Context {host : Host}.

(** A job or a [gpi_info]: a single number (a cell) or a tuple. *)
Inductive pyval :=
  | PNum (x : num)
  | PTuple (xs : list num).

(** A pandas DataFrame with column labels of type [L]; [len(df)] is
    [df_len]. *)
Record DataFrame (L : Type) := {
  df_len : nat;
  df_columns : list (L * series);
}.
Arguments df_len {L} _.
Arguments df_columns {L} _.

(** A numpy array: its [dtype] and its elements. *)
Record ndarray := {
  arr_dtype : dtype;
  arr_elems : list scalar;
}.

Abbreviation MatchedData := (odict DatasetKey (DataFrame (string * string))).
Abbreviation PointResult := (odict string ndarray).
Abbreviation Results := (odict ResultName (list PointResult)).
Abbreviation CompactResults := (odict ResultName (odict string ndarray)).

(** ** The key into the temporally matched data (lines 191-218) *)

(** [f = lambda x: "k{}".format(x) if x > 0 else 'ref'] *)
Definition f (x : nat) : string :=
  if bool_decide (0 < x) then "k" +:+ pretty x else "ref".

(** The loop over [enumerate(result)] that fills [dskey] and
    [rename_dict]; [i] is the index of the first element of [result]. *)
Fixpoint enumerate_result (i : nat) (result : ResultName)
    (dskey : list string) (rename_dict : odict string string)
    : list string * odict string string :=
  match result with
  | [] => (dskey, rename_dict)
  | r :: result' =>
      enumerate_result (S i) result' (dskey ++ [r.1]) (OD.set r.1 (f i) rename_dict)
  end.

Definition dskey_of (result : ResultName) : DatasetKey :=
  (enumerate_result 0 result [] []).1.

Definition rename_dict_of (result : ResultName) : odict string string :=
  (enumerate_result 0 result [] []).2.

(** [[key for key in n_matched_data if dskey[0] == key[0]]] *)
Fixpoint first_match (dskey : DatasetKey) (keys : list DatasetKey)
    : outcome (list DatasetKey) :=
  match keys with
  | [] => Return []
  | key :: keys' =>
      a ← getidx dskey 0;
      b ← getidx key 0;
      rest ← first_match dskey keys';
      Return (if decide (a = b) then key :: rest else rest)
  end.

(** The inner loop [for dsk in dskey[1:]: if dsk not in key: continue]:
    its [continue] goes to the next [dsk], so the loop has no effect. *)
Definition rest_in_key_loop (dskey key : DatasetKey) : unit :=
  fold_left (λ _ dsk, if bool_decide (dsk ∉ key) then tt else tt)
            (drop 1 dskey) tt.

(** The loop [for key in first_match: ...; found_key = key]. *)
Definition find_key (dskey : DatasetKey) (first_match : list DatasetKey)
    : option DatasetKey :=
  fold_left (λ found_key key,
               match rest_in_key_loop dskey key with tt => Some key end)
            first_match None.

(** [data = n_matched_data[...]] for a metrics calculator keyed [(n, k)]. *)
Definition select_data (n k : nat) (dskey : DatasetKey)
    (n_matched_data : MatchedData) : outcome (DataFrame (string * string)) :=
  if decide (n = k) then OD.getitem dskey n_matched_data
  else
    fm ← first_match dskey (OD.keys n_matched_data);
    match find_key dskey fm with
    | None => Raise KeyError      (* n_matched_data[None] *)
    | Some found_key => OD.getitem found_key n_matched_data
    end.


(** ** Projection and relabelling of the matched columns (lines 221-227) *)

(** [data[[x for x in result]]]: a new frame with the columns of [result],
    in that order; a label that is not a column raises [KeyError]. *)
Definition select_columns (data : DataFrame (string * string))
    (labels : ResultName) : outcome (DataFrame (string * string)) :=
  cols ← mapO (λ x, c ← OD.getitem x (df_columns data); Return (x, c)) labels;
  Return {| df_len := df_len data; df_columns := cols |}.

(** [data.columns = data.columns.droplevel(level=1)] *)
Definition droplevel_1 (data : DataFrame (string * string)) : DataFrame string :=
  {| df_len := df_len data;
     df_columns := (λ c : string * string * series, (c.1.1, c.2)) <$> df_columns data |}.

(** [data.rename(columns=rename_dict, inplace=True)]: a label that is not
    a key of [rename_dict] is kept. *)
Definition rename_columns (rename_dict : odict string string)
    (data : DataFrame string) : DataFrame string :=
  {| df_len := df_len data;
     df_columns :=
       (λ c : string * series, (default c.1 (OD.get c.1 rename_dict), c.2))
         <$> df_columns data |}.

(** Lines 191-227 for one [result]: the matched bucket, its columns of
    [result] under their role labels. *)
Definition prepare_data (n k : nat) (n_matched_data : MatchedData)
    (result : ResultName) : outcome (DataFrame string) :=
  data ← select_data n k (dskey_of result) n_matched_data;
  data ← select_columns data result;
  Return (rename_columns (rename_dict_of result) (droplevel_1 data)).

(** [l.index(x)] *)
Fixpoint list_index `{EqDecision A} (x : A) (l : list A) : outcome nat :=
  match l with
  | [] => Raise ValueError
  | y :: l' => if decide (x = y) then Return 0 else i ← list_index x l'; Return (S i)
  end.

(** ** The collaborators and the [Validation] object *)

(** Functions of other modules that [validation.py] imports. *)
Class Imports := {
  (* [data_manager.get_result_names(ds_dict, refkey, n)] *)
  get_result_names : dsdict → string → nat → outcome (list ResultName);
  (* [scaling.scale(data, method, reference_index)] *)
  scale : DataFrame string → string → nat → outcome (DataFrame string);
  (* the conversion of one element by [np.array(entries, dtype=...)] *)
  np_cast : dtype → scalar → outcome scalar;
}.
Context {imports : Imports}.

Record Grid := {
  grid_points_for_cell : pyval → outcome (list num * list num * list num);
}.

Record DataManager := {
  reference_grid : option Grid;
  ds_dict : dsdict;
  get_data : num → num → num → outcome (odict string table);
}.

Abbreviation Calculator := (DataFrame string → pyval → outcome PointResult).

(** The attributes of [self] that [calc] reads. *)
Record Validation := {
  data_manager : DataManager;
  temp_matching : odict string table → string → nat → outcome MatchedData;
  temporal_ref : string;
  metrics_c : odict (nat * nat) Calculator;
  scaling : option string;
  scaling_ref : string;
  cell_based_jobs : bool;
}.

(** The calls [calc] makes, with their arguments; [EvMetrics] also notes
    the result name the call is made for. *)
Inductive event :=
  | EvGridPoints (job : pyval)
  | EvGetData (gpi lon lat : num)
  | EvMatching (df_dict : odict string table) (ref : string) (n : nat)
  | EvResultNames (ref : string) (k : nat)
  | EvScale (data : DataFrame string) (method : string) (reference_index : nat)
  | EvMetrics (result : ResultName) (nk : nat * nat)
              (data : DataFrame string) (gpi_meta : pyval).

(** ** The monad of [calc]: the object, the calls made, the outcome *)

Definition M (A : Type) : Type :=
  Validation → Validation * list event * outcome A.

#[global] Instance M_ret : MRet M := λ A a self, (self, [], Return a).
#[global] Instance M_bind : MBind M := λ A B k m self,
  match m self with
  | (self1, t1, Raise e) => (self1, t1, Raise e)
  | (self1, t1, Return a) =>
      let '(self2, t2, r) := k a self1 in (self2, t1 ++ t2, r)
  end.

(** [self.field] *)
Definition attr {A} (field : Validation → A) : M A :=
  λ self, (self, [], Return (field self)).

(** A call to a collaborator, with what it returned or raised. *)
Definition call {A} (ev : event) (r : outcome A) : M A :=
  λ self, (self, [ev], r).

(** A computation of [calc] itself. *)
Definition lift {A} (r : outcome A) : M A :=
  λ self, (self, [], r).

(** [try: body except ValueError: handler] *)
Definition try_except_ValueError {A} (body handler : M A) : M A := λ self,
  match body self with
  | (self1, t1, Raise ValueError) =>
      let '(self2, t2, r) := handler self1 in (self2, t1 ++ t2, r)
  | other => other
  end.

(** [for x in l: a = body(a, x)] *)
Fixpoint foldM {A B} (body : A → B → M A) (a : A) (l : list B) : M A :=
  match l with
  | [] => mret a
  | x :: l' => a' ← body a x; foldM body a' l'
  end.

(** ** [Validation.calc] (lines 133-260) *)

(** [job[i]] *)
Definition job_getitem (job : pyval) (i : nat) : outcome num :=
  match job with
  | PNum _ => Raise TypeError
  | PTuple xs => getidx xs i
  end.

(** Lines 151-156: [process_gpis, process_lons, process_lats]. *)
Definition process_axes (job : pyval) : M (list num * list num * list num) :=
  cell_based ← attr cell_based_jobs;
  if cell_based : bool then
    dm ← attr data_manager;
    match reference_grid dm with
    | None => lift (Raise AttributeError)
    | Some grid => call (EvGridPoints job) (grid_points_for_cell grid job)
    end
  else
    gpi ← lift (job_getitem job 0);
    lon ← lift (job_getitem job 1);
    lat ← lift (job_getitem job 2);
    mret ([gpi], [lon], [lat]).

(** [zip(process_gpis, process_lons, process_lats)] *)
Fixpoint zip3 (gpis lons lats : list num) : list (num * num * num) :=
  match gpis, lons, lats with
  | gpi :: gpis', lon :: lons', lat :: lats' =>
      (gpi, lon, lat) :: zip3 gpis' lons' lats'
  | _, _, _ => []
  end.

(** The tuple [gpi_info] as a Python value. *)
Definition gpi_tuple (gpi_info : num * num * num) : pyval :=
  PTuple [gpi_info.1.1; gpi_info.1.2; gpi_info.2].

(** Lines 178-182: the body of the loop over the keys of [metrics_c]. *)
Definition match_step (df_dict : odict string table)
    (matched_n : odict (nat * nat) MatchedData) (nk : nat * nat)
    : M (odict (nat * nat) MatchedData) :=
  matcher ← attr temp_matching;
  ref ← attr temporal_ref;
  matched_data ← call (EvMatching df_dict ref nk.1) (matcher df_dict ref nk.1);
  mret (OD.set nk matched_data matched_n).

(** Lines 176-182: one temporal matching for each key of [metrics_c]. *)
Definition match_all (df_dict : odict string table)
    : M (odict (nat * nat) MatchedData) :=
  mc ← attr metrics_c;
  foldM (match_step df_dict) [] (OD.keys mc).

(** Lines 232-242: the scaling; [None] stands for the [continue] of the
    handler. *)
Definition scaling_stage (result : ResultName) (data : DataFrame string)
    : M (option (DataFrame string)) :=
  method ← attr scaling;
  match method with
  | None => mret (Some data)
  | Some method =>
      sref ← attr scaling_ref;
      label ← lift (OD.getitem sref (rename_dict_of result));
      scaling_index ← lift (list_index label (df_columns data).*1);
      try_except_ValueError
        (data' ← call (EvScale data method scaling_index)
                      (scale data method scaling_index);
         mret (Some data'))
        (mret None)
  end.

(** Lines 189-248: the body of the loop over the result names. *)
Definition process_result (n k : nat) (n_matched_data : MatchedData)
    (gpi_meta : pyval) (results : Results) (result : ResultName) : M Results :=
  data ← lift (prepare_data n k n_matched_data result);
  if decide (df_len data = 0) then mret results
  else
    scaled ← scaling_stage result data;
    match scaled with
    | None => mret results
    | Some data =>
        let results :=
          if OD.mem result results then results else OD.set result [] results in
        mc ← attr metrics_c;
        metrics_calculator ← lift (OD.getitem (n, k) mc);
        collected ← lift (OD.getitem result results);
        point_result ← call (EvMetrics result (n, k) data gpi_meta)
                            (metrics_calculator data gpi_meta);
        mret (OD.set result (collected ++ [point_result]) results)
    end.

(** Lines 184-248: the loop over the keys of [metrics_c]. *)
Definition process_metrics (matched_n : odict (nat * nat) MatchedData)
    (gpi_meta : pyval) (results : Results) : M Results :=
  mc ← attr metrics_c;
  foldM (λ results (nk : nat * nat),
           n_matched_data ← lift (OD.getitem nk matched_n);
           dm ← attr data_manager;
           ref ← attr temporal_ref;
           names ← call (EvResultNames ref nk.2)
                        (get_result_names (ds_dict dm) ref nk.2);
           foldM (process_result nk.1 nk.2 n_matched_data gpi_meta)
                 results names)
        results (OD.keys mc).

(** Lines 159-248: the body of the loop over the grid points. *)
Definition process_point (job : pyval) (results : Results)
    (gpi_info : num * num * num) : M Results :=
  cell_based ← attr cell_based_jobs;
  let gpi_meta := if cell_based : bool then gpi_tuple gpi_info else job in
  dm ← attr data_manager;
  df_dict ← call (EvGetData gpi_info.1.1 gpi_info.1.2 gpi_info.2)
                 (get_data dm gpi_info.1.1 gpi_info.1.2 gpi_info.2);
  if decide (length df_dict = 0) then mret results
  else
    matched_n ← match_all df_dict;
    process_metrics matched_n gpi_meta results.

(** Lines 149-248: the per-point results of every result name. *)
Definition collect (job : pyval) : M Results :=
  axes ← process_axes job;
  foldM (process_point job) [] (zip3 axes.1.1 axes.1.2 axes.2).

(** [np.array(entries, dtype=dt)] *)
Definition np_array (entries : list scalar) (dt : dtype) : outcome ndarray :=
  elems ← mapO (np_cast dt) entries;
  Return {| arr_dtype := dt; arr_elems := elems |}.

(** Lines 254-256: [entries] for one field. *)
Definition field_entries (field_name : string) (collected : list PointResult)
    : outcome (list scalar) :=
  foldO (λ entries result,
           value ← OD.getitem field_name result;
           x ← getidx (arr_elems value) 0;
           Return (entries ++ [x]))
        [] collected.

(** Lines 254-258: the array of one field, from [entries] and the dtype
    of the first collected value. *)
Definition field_array (results : Results) (key : ResultName)
    (field_name : string) : outcome ndarray :=
  collected ← OD.getitem key results;
  entries ← field_entries field_name collected;
  collected ← OD.getitem key results;
  first ← getidx collected 0;
  value ← OD.getitem field_name first;
  np_array entries (arr_dtype value).

(** Lines 253-258: the body of the loop over the field names. *)
Definition compact_field (results : Results) (key : ResultName)
    (compact_results : CompactResults) (field_name : string)
    : outcome CompactResults :=
  array ← field_array results key field_name;
  fields ← OD.getitem key compact_results;
  Return (OD.set key (OD.set field_name array fields) compact_results).

(** Lines 251-258: the body of the loop over [results.keys()]. *)
Definition compact_key (results : Results) (compact_results : CompactResults)
    (key : ResultName) : outcome CompactResults :=
  let compact_results := OD.set key [] compact_results in
  collected ← OD.getitem key results;
  first ← getidx collected 0;
  foldO (compact_field results key) compact_results (OD.keys first).

(** Lines 250-258. *)
Definition aggregate (results : Results) : outcome CompactResults :=
  foldO (compact_key results) [] (OD.keys results).

Definition calc (job : pyval) : M CompactResults :=
  results ← collect job;
  lift (aggregate results).

(** * Properties *)

(** ** Ordered dictionaries *)

Section od_facts.
Context {K V : Type} `{EqDecision K}.
Implicit Types (k : K) (v : V) (d : list (K * V)).

Lemma get_set_eq k v d : OD.get k (OD.set k v d) = Some v.
Proof.
  induction d as [|[k' v'] d IH]; simpl.
  - by rewrite decide_True.
  - destruct (decide (k = k')) as [->|Hne]; simpl.
    + by rewrite decide_True.
    + by rewrite decide_False.
Qed.

Lemma get_set_ne k k' v d : k ≠ k' → OD.get k' (OD.set k v d) = OD.get k' d.
Proof.
  intros Hne. induction d as [|[k0 v0] d IH]; simpl.
  - by rewrite decide_False.
  - destruct (decide (k = k0)) as [->|Hne0]; simpl.
    + by rewrite !decide_False.
    + destruct (decide (k' = k0)); [done | apply IH].
Qed.

Lemma set_set k v1 v2 d : OD.set k v2 (OD.set k v1 d) = OD.set k v2 d.
Proof.
  induction d as [|[k' v'] d IH]; simpl.
  - by rewrite decide_True.
  - destruct (decide (k = k')) as [->|Hne]; simpl.
    + by rewrite decide_True.
    + rewrite decide_False by done. by rewrite IH.
Qed.

Lemma get_None_keys k d : OD.get k d = None ↔ k ∉ OD.keys d.
Proof.
  unfold OD.keys. induction d as [|[k' v'] d IH]; csimpl.
  - split; [intros _; apply not_elem_of_nil | done].
  - rewrite not_elem_of_cons. destruct (decide (k = k')) as [->|Hne].
    + split; [done | intros [? _]; done].
    + rewrite IH. tauto.
Qed.

End od_facts.

(** ** Loops in the outcome monad *)

Lemma foldO_raise {A B} (body : A → B → outcome A) (l : list B) (x : B) :
  x ∈ l → (∀ a, is_raise (body a x)) → ∀ a, is_raise (foldO body a l).
Proof.
  intros Hx Hbody. induction l as [|y l IH]; intros a; simpl.
  - by apply elem_of_nil in Hx.
  - apply elem_of_cons in Hx as [<-|Hx].
    + specialize (Hbody a). by destruct (body a x).
    + destruct (body a y); simpl; [done | by apply IH].
Qed.

Lemma foldO_inv {A B} (I : list B → A → Prop) (body : A → B → outcome A)
    (l : list B) (a0 : A) :
  I [] a0 →
  (∀ done x a a', I done a → body a x = Return a' → I (done ++ [x]) a') →
  ∀ a', foldO body a0 l = Return a' → I l a'.
Proof.
  intros H0 Hstep.
  assert (∀ l done a a', I done a → foldO body a l = Return a' → I (done ++ l) a')
    as Hgen.
  { clear l. induction l as [|x l IH]; intros done a a' HI; simpl.
    - intros [= <-]. by rewrite app_nil_r.
    - destruct (body a x) as [e|a1] eqn:Hb; simpl; [done |].
      intros Hf. rewrite cons_middle, app_assoc. eapply IH; [|done]. eauto. }
  intros a' Hf. by apply (Hgen l [] a0 a').
Qed.

Lemma mapO_Forall2 {A B} (g : A → outcome B) (l : list A) (l' : list B) :
  mapO g l = Return l' → Forall2 (λ x y, g x = Return y) l l'.
Proof.
  revert l'. induction l as [|x l IH]; intros l'; simpl.
  - intros [= <-]. constructor.
  - destruct (g x) as [e|y] eqn:Hg; simpl; [done |].
    destruct (mapO g l) as [e|ys]; simpl; [done |].
    intros [= <-]. constructor; [done | by apply IH].
Qed.

(** ** Computations of [calc]: [self] is only read *)

(** [m], run on [self], leaves [self] as it is and makes only calls
    that satisfy [P]. *)
Definition obeys {A} (P : event → Prop) (self : Validation) (m : M A) : Prop :=
  (m self).1.1 = self ∧ Forall P (m self).1.2.

Lemma obeys_ret {A} P self (a : A) : obeys P self (mret a).
Proof. by split; [| constructor]. Qed.

Lemma obeys_attr {A} P self (field : Validation → A) : obeys P self (attr field).
Proof. by split; [| constructor]. Qed.

Lemma obeys_lift {A} P self (r : outcome A) : obeys P self (lift r).
Proof. by split; [| constructor]. Qed.

Lemma obeys_call {A} (P : event → Prop) self ev (r : outcome A) :
  P ev → obeys P self (call ev r).
Proof. intros Hev. split; [done |]. by repeat constructor. Qed.

Lemma obeys_bind {A B} P self (m : M A) (k : A → M B) :
  obeys P self m →
  (∀ a, (m self).2 = Return a → obeys P self (k a)) →
  obeys P self (m ≫= k).
Proof.
  unfold obeys, mbind, M_bind. intros [Hs Ht] Hk.
  destruct (m self) as [[s1 t1] [e|a]]; simpl in *; [done |].
  subst s1. destruct (Hk a eq_refl) as [Hs2 Ht2].
  destruct (k a self) as [[s2 t2] r]; simpl in *.
  split; [done | by apply Forall_app].
Qed.

Lemma obeys_try {A} P self (body handler : M A) :
  obeys P self body → obeys P self handler →
  obeys P self (try_except_ValueError body handler).
Proof.
  unfold obeys, try_except_ValueError. intros [Hs Ht] [Hs' Ht'].
  destruct (body self) as [[s1 t1] [[]|a]]; simpl in *; try done.
  subst s1. destruct (handler self) as [[s2 t2] r]; simpl in *.
  split; [done | by apply Forall_app].
Qed.

Lemma obeys_foldM {A B} P self (body : A → B → M A) (l : list B) :
  (∀ a x, x ∈ l → obeys P self (body a x)) →
  ∀ a, obeys P self (foldM body a l).
Proof.
  induction l as [|x l IH]; intros Hbody a; simpl.
  - apply obeys_ret.
  - apply obeys_bind.
    + apply Hbody. left.
    + intros a' _. apply IH. intros a'' y Hy. apply Hbody. by right.
Qed.

(** What a computation that only reads [self] does, step by step. *)
Lemma bind_return {A B} (m : M A) (k : A → M B) self t a :
  m self = (self, t, Return a) →
  (m ≫= k) self = ((k a self).1.1, t ++ (k a self).1.2, (k a self).2).
Proof.
  unfold mbind, M_bind. intros ->. by destruct (k a self) as [[s2 t2] r].
Qed.

Lemma bind_is_raise {A B} (m : M A) (k : A → M B) self :
  (m self).1.1 = self →
  (∀ a, (m self).2 = Return a → is_raise (k a self).2) →
  is_raise ((m ≫= k) self).2.
Proof.
  unfold mbind, M_bind. intros Hs Hk.
  destruct (m self) as [[s1 t1] [e|a]]; simpl in *; [done |].
  subst s1. specialize (Hk a eq_refl). by destruct (k a self) as [[s2 t2] r].
Qed.

Lemma foldM_is_raise {A B} (body : A → B → M A) (l : list B) (x : B) self :
  (∀ a y, (body a y self).1.1 = self) →
  x ∈ l → (∀ a, is_raise (body a x self).2) →
  ∀ a, is_raise (foldM body a l self).2.
Proof.
  intros Hs Hx Hbody. induction l as [|y l IH]; intros a; simpl.
  - by apply elem_of_nil in Hx.
  - apply elem_of_cons in Hx as [<-|Hx].
    + unfold mbind, M_bind. specialize (Hbody a).
      by destruct (body a x self) as [[s1 t1] [e|a1]].
    + apply bind_is_raise; [apply Hs |]. intros a' _. by apply IH.
Qed.

(** A loop keeps an invariant [I] between its accumulator and the calls
    made so far. *)
Lemma foldM_inv {A B} (I : A → list event → Prop) (body : A → B → M A)
    (l : list B) self :
  (∀ a x, x ∈ l → (body a x self).1.1 = self) →
  (∀ a x t0 s t a', x ∈ l → I a t0 → body a x self = (s, t, Return a') →
     I a' (t0 ++ t)) →
  ∀ a t0 s t a', I a t0 → foldM body a l self = (s, t, Return a') →
    I a' (t0 ++ t).
Proof.
  induction l as [|x l IH]; intros Hs Hstep a t0 s t a' HI; simpl.
  - intros [= <- <- <-]. by rewrite app_nil_r.
  - unfold mbind, M_bind.
    assert (x ∈ x :: l) as Hx by left.
    pose proof (Hs a x Hx) as Hsx.
    destruct (body a x self) as [[s1 t1] [e|a1]] eqn:Hb; simpl in *; [done |].
    subst s1.
    destruct (foldM body a1 l self) as [[s2 t2] r] eqn:Hf.
    intros [= <- <- ->]. rewrite app_assoc.
    eapply IH; [| | |done].
    + intros a0 y Hy. apply Hs. by right.
    + intros a0 y t3 s3 t4 a4 Hy. apply Hstep. by right.
    + eapply Hstep; [exact Hx | done | done].
Qed.

Ltac obeys_step :=
  lazymatch goal with
  | |- obeys _ _ (mret _) => apply obeys_ret
  | |- obeys _ _ (attr _) => apply obeys_attr
  | |- obeys _ _ (lift _) => apply obeys_lift
  | |- obeys _ _ (_ ≫= _) => apply obeys_bind; [| intros ? ?]
  | |- obeys _ _ (try_except_ValueError _ _) => apply obeys_try
  | |- obeys _ _ (foldM _ _ _) => apply obeys_foldM; intros ? ? ?
  | |- obeys _ _ (call _ _) => apply obeys_call
  | |- obeys _ _ (if ?b then _ else _) => destruct b
  | |- obeys _ _ (match ?o with Some _ => _ | None => _ end) => destruct o
  end.

Lemma match_all_obeys (P : event → Prop) self df_dict :
  (∀ ref n, P (EvMatching df_dict ref n)) →
  obeys P self (match_all df_dict).
Proof. intros HP. unfold match_all, match_step. repeat obeys_step. apply HP. Qed.

Lemma scaling_stage_obeys (P : event → Prop) self result data :
  (∀ d method i, P (EvScale d method i)) →
  obeys P self (scaling_stage result data).
Proof. intros HP. unfold scaling_stage. repeat obeys_step. apply HP. Qed.

Lemma process_result_obeys (P : event → Prop) self n k md gpi_meta results result :
  (∀ d method i, P (EvScale d method i)) →
  (∀ d, P (EvMetrics result (n, k) d gpi_meta)) →
  obeys P self (process_result n k md gpi_meta results result).
Proof.
  intros HS HM. unfold process_result.
  obeys_step; [obeys_step |]. obeys_step; [obeys_step |].
  obeys_step; [by apply scaling_stage_obeys |].
  repeat obeys_step. apply HM.
Qed.

Lemma process_metrics_obeys (P : event → Prop) self matched_n gpi_meta results :
  (∀ d method i, P (EvScale d method i)) →
  (∀ ref k, P (EvResultNames ref k)) →
  (∀ result nk d, P (EvMetrics result nk d gpi_meta)) →
  obeys P self (process_metrics matched_n gpi_meta results).
Proof.
  intros HS HN HM. unfold process_metrics.
  obeys_step; [obeys_step |]. obeys_step.
  obeys_step; [obeys_step |]. obeys_step; [obeys_step |].
  obeys_step; [obeys_step |]. obeys_step; [obeys_step; apply HN |].
  obeys_step. apply process_result_obeys; [done |].
  intros d. destruct x. apply HM.
Qed.

(** The calls a grid point may give rise to: any retrieval, matching,
    result-name or scaling call, and metrics calls with [gpi_meta]. *)
Definition point_call (gpi_meta : pyval) (ev : event) : Prop :=
  match ev with
  | EvGridPoints _ => False
  | EvMetrics _ _ _ meta => meta = gpi_meta
  | _ => True
  end.

Lemma process_point_obeys self job results gpi_info :
  obeys (point_call (if cell_based_jobs self then gpi_tuple gpi_info else job))
        self (process_point job results gpi_info).
Proof.
  unfold process_point.
  obeys_step; [obeys_step |]. simpl in *. simplify_eq.
  obeys_step; [obeys_step |]. obeys_step; [by obeys_step |].
  obeys_step; [obeys_step |].
  obeys_step; [by apply match_all_obeys |].
  by apply process_metrics_obeys.
Qed.

Lemma obeys_weaken {A} (P Q : event → Prop) self (m : M A) :
  (∀ ev, P ev → Q ev) → obeys P self m → obeys Q self m.
Proof. intros HPQ [Hs Ht]. split; [done |]. by eapply Forall_impl. Qed.

Lemma collect_obeys self job : obeys (λ _, True) self (collect job).
Proof.
  unfold collect, process_axes. repeat obeys_step; try done.
  eapply obeys_weaken; [| apply process_point_obeys]. done.
Qed.

Lemma calc_obeys self job : obeys (λ _, True) self (calc job).
Proof. unfold calc. obeys_step; [apply collect_obeys | obeys_step]. Qed.

(** ** The job's grid points and the [gpi_meta] of the metrics calls *)

(** What [gpi_meta] may be for [job]: a (gpi, lon, lat) of the cell's grid
    points when the jobs are cell based, the job itself otherwise. *)
Definition point_meta_of (self : Validation) (job meta : pyval) : Prop :=
  if cell_based_jobs self then
    ∃ grid gpis lons lats gpi lon lat,
      reference_grid (data_manager self) = Some grid ∧
      grid_points_for_cell grid job = Return (gpis, lons, lats) ∧
      (gpi, lon, lat) ∈ zip3 gpis lons lats ∧
      meta = PTuple [gpi; lon; lat]
  else meta = job.

Definition metrics_call_of (self : Validation) (job : pyval) (ev : event) : Prop :=
  match ev with
  | EvMetrics _ _ _ meta => point_meta_of self job meta
  | _ => True
  end.

Lemma process_axes_cell_based self job axes :
  cell_based_jobs self = true →
  (process_axes job self).2 = Return axes →
  ∃ grid, reference_grid (data_manager self) = Some grid ∧
          grid_points_for_cell grid job = Return axes.
Proof.
  intros Hcb. unfold process_axes, mbind, M_bind, attr, call, lift. simpl.
  rewrite Hcb. simpl.
  destruct (reference_grid (data_manager self)) as [grid|]; simpl; [| done].
  destruct (grid_points_for_cell grid job) as [e|a] eqn:Hpts; simpl; [done |].
  intros [= ->]. by exists grid.
Qed.

Lemma process_axes_obeys self job : obeys (metrics_call_of self job) self (process_axes job).
Proof. unfold process_axes. repeat obeys_step; done. Qed.

Lemma collect_metrics_calls self job :
  obeys (metrics_call_of self job) self (collect job).
Proof.
  unfold collect. obeys_step; [apply process_axes_obeys |].
  obeys_step. eapply obeys_weaken; [| apply process_point_obeys].
  intros [] Hev; simpl in *; try done. subst gpi_meta.
  unfold point_meta_of. destruct (cell_based_jobs self) eqn:Hcb; [| done].
  destruct (process_axes_cell_based self job a Hcb) as (grid & Hg & Hpts); [done |].
  destruct a as [[gpis lons] lats], x as [[gpi lon] lat]. simpl in *.
  by exists grid, gpis, lons, lats, gpi, lon, lat.
Qed.

(** In every call of a metrics calculator that [calc] makes, the second
    argument is the (gpi, lon, lat) tuple of one of the cell's grid points
    when the jobs are cell based, and it is the job itself when they are
    not. *)
Lemma metrics_calls_get_point_meta job self result nk data meta :
  EvMetrics result nk data meta ∈ (calc job self).1.2 →
  if cell_based_jobs self then
    ∃ grid gpis lons lats gpi lon lat,
      reference_grid (data_manager self) = Some grid ∧
      grid_points_for_cell grid job = Return (gpis, lons, lats) ∧
      (gpi, lon, lat) ∈ zip3 gpis lons lats ∧
      meta = PTuple [gpi; lon; lat]
  else meta = job.
Proof.
  intros Hev.
  assert (obeys (metrics_call_of self job) self (calc job)) as [_ Hcalls].
  { unfold calc. obeys_step; [apply collect_metrics_calls | obeys_step]. }
  rewrite Forall_forall in Hcalls. apply (Hcalls _ Hev).
Qed.

(** ** No state is carried from one call of [calc] to the next *)

(** [calc] only reads the [Validation] object. *)
Lemma calc_twice_same job self :
  let '(self1, calls1, r1) := calc job self in
  let '(self2, calls2, r2) := calc job self1 in
  self1 = self ∧ self2 = self ∧ calls2 = calls1 ∧ r2 = r1.
Proof.
  destruct (calc_obeys self job) as [Hs _].
  destruct (calc job self) as [[self1 calls1] r1] eqn:Hcalc.
  simpl in Hs. subst self1. by rewrite Hcalc.
Qed.

(** ** The bucket selected when more datasets were matched than requested *)

Lemma rest_in_key_loop_tt dskey key : rest_in_key_loop dskey key = tt.
Proof. by destruct (rest_in_key_loop dskey key). Qed.

(** The containment loop has no say: the last key of [first_match] wins. *)
Lemma find_key_last dskey (fm : list DatasetKey) : find_key dskey fm = last fm.
Proof.
  unfold find_key. destruct (last fm) as [key|] eqn:Hlast.
  - apply last_Some in Hlast as [fm' ->].
    rewrite fold_left_app. simpl. by rewrite rest_in_key_loop_tt.
  - apply last_None in Hlast as ->. done.
Qed.

Lemma first_match_spec dskey (keys fm : list DatasetKey) :
  first_match dskey keys = Return fm →
  fm = filter (λ key, key !! 0 = dskey !! 0) keys.
Proof.
  revert fm. induction keys as [|key keys IH]; intros fm; simpl.
  - by intros [= <-].
  - unfold getidx.
    destruct (dskey !! 0) as [a|] eqn:Ha; simpl; [| done].
    destruct (key !! 0) as [b|] eqn:Hb; simpl; [| done].
    destruct (first_match dskey keys) as [e|rest]; simpl; [done |].
    intros [= <-]. rewrite (IH rest eq_refl), filter_cons.
    destruct (decide (a = b)) as [->|Hne].
    + by rewrite decide_True.
    + rewrite decide_False; [done | congruence].
Qed.

(** X18: for [n ≠ k], when [first_match] goes through, the bucket taken
    is that of the last key, in the order of the matched buckets, whose
    first element is [dskey[0]], whatever the other dataset names of
    [dskey] are; without such a key the lookup raises [KeyError]. *)
Lemma select_data_last n k dskey (md : MatchedData) fm :
  n ≠ k → first_match dskey (OD.keys md) = Return fm →
  fm = filter (λ key, key !! 0 = dskey !! 0) (OD.keys md) ∧
  select_data n k dskey md =
    match last fm with
    | None => Raise KeyError
    | Some found_key => OD.getitem found_key md
    end.
Proof.
  intros Hne Hfm. split; [by apply first_match_spec |].
  unfold select_data. rewrite decide_False by done. rewrite Hfm. simpl.
  by rewrite find_key_last.
Qed.

(** ** The role labels of the projected columns *)

Lemma f_inj i j : f i = f j → i = j.
Proof.
  unfold f. repeat case_bool_decide; try lia.
  - intros Hp. apply (inj (String.append "k")) in Hp. by apply (inj pretty) in Hp.
  - intros Hp. cbn in Hp. discriminate.
  - intros Hp. cbn in Hp. discriminate.
Qed.

Lemma enumerate_result_dskey i result dskey rd :
  (enumerate_result i result dskey rd).1 = dskey ++ result.*1.
Proof.
  revert i dskey rd. induction result as [|r result IH]; intros i dskey rd; simpl.
  - by rewrite app_nil_r.
  - by rewrite IH, <-app_assoc.
Qed.

Lemma dskey_of_names result : dskey_of result = result.*1.
Proof. unfold dskey_of. by rewrite enumerate_result_dskey. Qed.

Lemma enumerate_result_other i result dskey rd ds :
  ds ∉ result.*1 →
  OD.get ds (enumerate_result i result dskey rd).2 = OD.get ds rd.
Proof.
  revert i dskey rd. induction result as [|r result IH]; intros i dskey rd; csimpl.
  - done.
  - rewrite not_elem_of_cons. intros [Hne Hnin].
    rewrite IH by done. by rewrite get_set_ne.
Qed.

Lemma enumerate_result_role i result dskey rd j r :
  NoDup result.*1 → result !! j = Some r →
  OD.get r.1 (enumerate_result i result dskey rd).2 = Some (f (i + j)).
Proof.
  revert i dskey rd j.
  induction result as [|r0 result IH]; intros i dskey rd j; csimpl; [done |].
  rewrite NoDup_cons. intros [Hnin Hnd]. destruct j as [|j]; simpl.
  - intros [= ->]. rewrite enumerate_result_other by done.
    by rewrite get_set_eq, Nat.add_0_r.
  - intros Hj. rewrite (IH _ _ _ j) by done. f_equal. f_equal. lia.
Qed.

Lemma select_columns_labels data labels data' :
  select_columns data labels = Return data' →
  (df_columns data').*1 = labels ∧ df_len data' = df_len data.
Proof.
  unfold select_columns.
  destruct (mapO _ labels) as [e|cols] eqn:Hcols; simpl; [done |].
  intros [= <-]. simpl. split; [| done].
  apply mapO_Forall2 in Hcols.
  induction Hcols as [|x c l l' Hx _ IH]; csimpl; [done |].
  destruct (OD.getitem x (df_columns data)); simpl in Hx; [done |].
  injection Hx as <-. by rewrite IH.
Qed.

(** The labels [prepare_data] gives to the columns: each position gets
    what [rename_dict] holds for its dataset name. *)
Lemma prepare_data_labels n k md result data :
  prepare_data n k md result = Return data →
  (df_columns data).*1 =
    (λ r : string * string, default r.1 (OD.get r.1 (rename_dict_of result)))
      <$> result.
Proof.
  unfold prepare_data.
  destruct (select_data _ _ _ _) as [e|d0]; simpl; [done |].
  destruct (select_columns d0 result) as [e|d1] eqn:Hsel; simpl; [done |].
  intros [= <-]. apply select_columns_labels in Hsel as [Hlab _].
  generalize (rename_dict_of result). intros rd. rewrite <-Hlab.
  unfold rename_columns, droplevel_1. simpl.
  rewrite <-!list_fmap_compose. by apply list_fmap_ext.
Qed.

(** C4: for a result name in which no dataset name occurs twice, the
    column at position 0 is relabelled [ref], the column at every position
    I ≥ 1 is relabelled [kI], and no two columns get the same label. *)
Theorem relabel_positions n k md (result : ResultName) data :
  NoDup result.*1 →
  prepare_data n k md result = Return data →
  length (df_columns data) = length result ∧
  (∀ i, i < length result →
     (df_columns data).*1 !! i =
       Some (if decide (i = 0) then "ref" else "k" +:+ pretty i)) ∧
  NoDup (df_columns data).*1.
Proof.
  intros Hnd Hprep. apply prepare_data_labels in Hprep.
  assert (∀ i r, result !! i = Some r → (df_columns data).*1 !! i = Some (f i))
    as Hrole.
  { intros i r Hi. rewrite Hprep, list_lookup_fmap, Hi. simpl.
    unfold rename_dict_of.
    by rewrite (enumerate_result_role 0 result [] [] i r). }
  split; [| split].
  - rewrite <-(length_fmap fst (df_columns data)), Hprep. apply length_fmap.
  - intros i Hi. apply lookup_lt_is_Some_2 in Hi as [r Hr].
    rewrite (Hrole i r Hr). f_equal. unfold f.
    destruct (decide (i = 0)) as [->|Hne]; [done |].
    rewrite bool_decide_eq_true_2; [done | lia].
  - apply NoDup_alt. intros i j label Hi Hj.
    assert (is_Some (result !! i)) as [ri Hri].
    { apply lookup_lt_is_Some. apply lookup_lt_Some in Hi.
      by rewrite Hprep, length_fmap in Hi. }
    assert (is_Some (result !! j)) as [rj Hrj].
    { apply lookup_lt_is_Some. apply lookup_lt_Some in Hj.
      by rewrite Hprep, length_fmap in Hj. }
    rewrite (Hrole i ri Hri) in Hi. rewrite (Hrole j rj Hrj) in Hj.
    apply f_inj. congruence.
Qed.

(** ** The temporal matching of a grid point *)

Lemma match_loop_spec self df_dict (l : list (nat * nat)) a s t a' :
  foldM (match_step df_dict) a l self = (s, t, Return a') →
  s = self ∧
  t = (λ nk : nat * nat, EvMatching df_dict (temporal_ref self) nk.1) <$> l ∧
  (∀ nk, nk ∈ l →
     ∃ md, temp_matching self df_dict (temporal_ref self) nk.1 = Return md ∧
           OD.get nk a' = Some md) ∧
  (∀ nk, nk ∉ l → OD.get nk a' = OD.get nk a).
Proof.
  revert a s t a'. induction l as [|x l IH]; intros a s t a'; simpl.
  - intros [= <- <- <-]. split_and!; try done. intros nk Hnk. by apply elem_of_nil in Hnk.
  - unfold mbind at 1. unfold M_bind.
    unfold match_step at 1. unfold mbind, M_bind, attr, call, mret, M_ret. simpl.
    destruct (temp_matching self df_dict (temporal_ref self) x.1) as [e|md] eqn:Hmd;
      simpl; [done |].
    destruct (foldM (match_step df_dict) (OD.set x md a) l self)
      as [[s2 t2] r2] eqn:Hloop.
    intros [= <- <- ->].
    destruct (IH _ _ _ _ Hloop) as (-> & -> & Hin & Hout).
    split_and!; try done.
    + intros nk [->|Hnk]%elem_of_cons; [| by apply Hin].
      destruct (decide (x ∈ l)) as [Hx|Hx]; [by apply Hin |].
      exists md. split; [done |]. by rewrite Hout, get_set_eq.
    + intros nk [Hne Hnk]%not_elem_of_cons.
      rewrite Hout by done. by rewrite get_set_ne.
Qed.

Lemma match_all_spec self df_dict s t matched_n :
  match_all df_dict self = (s, t, Return matched_n) →
  s = self ∧
  t = (λ nk : nat * nat, EvMatching df_dict (temporal_ref self) nk.1)
        <$> OD.keys (metrics_c self) ∧
  (∀ nk, nk ∈ OD.keys (metrics_c self) →
     ∃ md, temp_matching self df_dict (temporal_ref self) nk.1 = Return md ∧
           OD.get nk matched_n = Some md).
Proof.
  unfold match_all. unfold mbind at 1. unfold M_bind, attr.
  destruct (foldM _ [] (OD.keys (metrics_c self)) self) as [[s2 t2] r2] eqn:Hloop.
  simpl. intros [= <- <- ->].
  destruct (match_loop_spec _ _ _ _ _ _ _ Hloop) as (-> & -> & Hin & _). done.
Qed.

Definition is_matching (ev : event) : bool :=
  match ev with EvMatching _ _ _ => true | _ => false end.

Lemma filter_all {A} (P : A → Prop) `{∀ x, Decision (P x)} (l : list A) :
  Forall P l → filter P l = l.
Proof.
  induction 1 as [|x l Hx _ IH]; [done |]. by rewrite filter_cons_True, IH.
Qed.

Lemma filter_none {A} (P : A → Prop) `{∀ x, Decision (P x)} (l : list A) :
  Forall (λ x, ¬ P x) l → filter P l = [].
Proof.
  induction 1 as [|x l Hx _ IH]; [done |]. by rewrite filter_cons_False.
Qed.

(** C3: at a grid point with data whose matching goes through, the
    temporal matcher is called once for each key [(n, k)] of the metrics
    calculators, in their order and with that key's [n]: as many calls as
    there are keys. *)
Theorem matching_once_per_key job results gpi lon lat self df_dict :
  get_data (data_manager self) gpi lon lat = Return df_dict →
  length df_dict ≠ 0 →
  is_return (match_all df_dict self).2 →
  filter is_matching (process_point job results (gpi, lon, lat) self).1.2 =
    ((λ nk : nat * nat, EvMatching df_dict (temporal_ref self) nk.1)
       <$> OD.keys (metrics_c self)) ∧
  length (filter is_matching
            (process_point job results (gpi, lon, lat) self).1.2)
    = length (metrics_c self).
Proof.
  intros Hdata Hlen Hret.
  assert (filter is_matching
            (process_point job results (gpi, lon, lat) self).1.2 =
          ((λ nk : nat * nat, EvMatching df_dict (temporal_ref self) nk.1)
             <$> OD.keys (metrics_c self))) as Hcalls.
  { unfold process_point, mbind at 1, M_bind, attr.
    unfold mbind at 1. unfold M_bind, attr.
    unfold mbind at 1. unfold M_bind, call. simpl. rewrite Hdata.
    rewrite decide_False by done.
    unfold mbind at 1. unfold M_bind.
    destruct (match_all df_dict self) as [[s1 t1] [e|matched_n]] eqn:Hmatch;
      [done |].
    apply match_all_spec in Hmatch as (-> & -> & _).
    set (gpi_meta := if cell_based_jobs self then _ else _).
    destruct (process_metrics_obeys (λ ev, ¬ is_matching ev) self matched_n
                gpi_meta results) as [_ Hno];
      [intros ? ? ? Hm; exact Hm | intros ? ? Hm; exact Hm
      | intros ? ? ? Hm; exact Hm |].
    destruct (process_metrics matched_n gpi_meta results self) as [[s2 t2] r2].
    simpl in *. rewrite filter_cons_False by (intros Hm; exact Hm).
    rewrite filter_app, (filter_none _ _ Hno), app_nil_r.
    apply filter_all, Forall_fmap, Forall_true. by intros nk. }
  split; [done |]. rewrite Hcalls. unfold OD.keys. by rewrite !length_fmap.
Qed.

(** ** Grid points without data *)

Lemma process_point_no_data self job results gpi_info :
  get_data (data_manager self) gpi_info.1.1 gpi_info.1.2 gpi_info.2 = Return [] →
  process_point job results gpi_info self =
    (self, [EvGetData gpi_info.1.1 gpi_info.1.2 gpi_info.2], Return results).
Proof.
  intros Hdata. unfold process_point, mbind, M_bind, attr, call, mret, M_ret.
  simpl. by rewrite Hdata.
Qed.

Lemma collect_loop_no_data self job results (l : list (num * num * num)) :
  (∀ gpi_info, gpi_info ∈ l →
     get_data (data_manager self) gpi_info.1.1 gpi_info.1.2 gpi_info.2 = Return []) →
  foldM (process_point job) results l self =
    (self, (λ p : num * num * num, EvGetData p.1.1 p.1.2 p.2) <$> l, Return results).
Proof.
  induction l as [|p l IH]; intros Hdata; simpl; [done |].
  erewrite bind_return; [| apply process_point_no_data, Hdata; left].
  rewrite IH; [done |]. intros q Hq. apply Hdata. by right.
Qed.

(** C5: when the data manager has no data at any of the job's grid
    points, [calc] only reads each point (no matching, result-name,
    scaling or metrics call is made) and returns the empty mapping. *)
Theorem calc_no_data job self calls0 gpis lons lats :
  process_axes job self = (self, calls0, Return (gpis, lons, lats)) →
  (∀ gpi lon lat, (gpi, lon, lat) ∈ zip3 gpis lons lats →
     get_data (data_manager self) gpi lon lat = Return []) →
  calc job self =
    (self,
     calls0 ++ ((λ p : num * num * num, EvGetData p.1.1 p.1.2 p.2)
                  <$> zip3 gpis lons lats),
     Return []).
Proof.
  intros Haxes Hdata. unfold calc, collect.
  erewrite bind_return; cycle 1.
  { erewrite bind_return; [| exact Haxes]. simpl.
    rewrite collect_loop_no_data; [done |].
    intros [[gpi lon] lat] Hp. by apply Hdata. }
  simpl. by rewrite app_nil_r.
Qed.

(** ** Scaling that is not feasible *)

Lemma scaling_stage_infeasible self result data method label idx :
  scaling self = Some method →
  OD.getitem (scaling_ref self) (rename_dict_of result) = Return label →
  list_index label (df_columns data).*1 = Return idx →
  scale data method idx = Raise ValueError →
  scaling_stage result data self = (self, [EvScale data method idx], Return None).
Proof.
  intros Hm Hlabel Hidx Hscale.
  unfold scaling_stage, mbind, M_bind, attr, lift, try_except_ValueError, call.
  simpl. rewrite Hm. simpl. rewrite Hlabel. simpl. rewrite Hidx. simpl.
  by rewrite Hscale.
Qed.


(** ** A requested key that is not among the matched buckets *)

(** The key of a result name is absent from the matched buckets: for
    [n = k] it is not a key of the mapping, otherwise no key of the mapping
    starts with its first dataset name. *)
Definition key_absent (n k : nat) (dskey : DatasetKey) (md : MatchedData) : Prop :=
  if decide (n = k) then OD.get dskey md = None
  else ∀ key a, key ∈ OD.keys md → dskey !! 0 = Some a → key !! 0 ≠ Some a.

Lemma first_match_none dskey (keys : list DatasetKey) :
  (∀ key a, key ∈ keys → dskey !! 0 = Some a → key !! 0 ≠ Some a) →
  first_match dskey keys = Return [] ∨ is_raise (first_match dskey keys).
Proof.
  induction keys as [|key keys IH]; intros Hnone; simpl; [by left |].
  unfold getidx.
  destruct (dskey !! 0) as [a|] eqn:Ha; simpl; [| by right].
  destruct (key !! 0) as [b|] eqn:Hb; simpl; [| by right].
  destruct IH as [-> | Hraise].
  - intros key' a' Hin. apply Hnone. by right.
  - simpl. left. rewrite decide_False; [done |].
    intros ->. by apply (Hnone key b); [left | |].
  - right. by destruct (first_match dskey keys).
Qed.

Lemma select_data_absent n k dskey md :
  key_absent n k dskey md → is_raise (select_data n k dskey md).
Proof.
  unfold key_absent, select_data, OD.getitem.
  destruct (decide (n = k)) as [_|_].
  - by intros ->.
  - intros Hnone. destruct (first_match_none _ _ Hnone) as [-> | Hraise]; [done |].
    by destruct (first_match dskey (OD.keys md)).
Qed.

Lemma process_result_absent self n k md gpi_meta results result :
  key_absent n k (dskey_of result) md →
  is_raise (process_result n k md gpi_meta results result self).2.
Proof.
  intros Habs%select_data_absent.
  unfold process_result, prepare_data, mbind at 1, M_bind, lift.
  by destruct (select_data n k (dskey_of result) md).
Qed.

(** The body of the loop of [process_metrics]. *)
Lemma process_metrics_absent self matched_n gpi_meta results n k md names result :
  (n, k) ∈ OD.keys (metrics_c self) →
  OD.get (n, k) matched_n = Some md →
  get_result_names (ds_dict (data_manager self)) (temporal_ref self) k
    = Return names →
  result ∈ names →
  key_absent n k (dskey_of result) md →
  is_raise (process_metrics matched_n gpi_meta results self).2.
Proof.
  intros Hnk Hmd Hnames Hres Habs. unfold process_metrics.
  apply bind_is_raise; [done |]. intros mc [= <-].
  apply (foldM_is_raise _ _ (n, k)); [| done |].
  - intros a y.
    eapply proj1.
    apply (obeys_bind (λ _, True)); [apply obeys_lift |]. intros ? _.
    apply obeys_bind; [apply obeys_attr |]. intros ? _.
    apply obeys_bind; [apply obeys_attr |]. intros ? _.
    apply obeys_bind; [by apply obeys_call |]. intros ? _.
    apply obeys_foldM. intros ? ? _. by apply process_result_obeys.
  - intros a. unfold mbind at 1. unfold M_bind, lift, OD.getitem.
    rewrite Hmd. simpl.
    unfold mbind, M_bind, attr, call. simpl. rewrite Hnames. simpl.
    assert (is_raise
              (foldM (process_result n k md gpi_meta) a names self).2) as Hraise.
    { apply (foldM_is_raise _ _ result); [| done |].
      - intros a' y. by eapply proj1, (process_result_obeys (λ _, True)).
      - intros a'. by apply process_result_absent. }
    by destruct (foldM (process_result n k md gpi_meta) a names self)
      as [[s2 t2] [e|r]].
Qed.

Lemma process_point_absent self job results gpi lon lat df_dict n k md names result :
  get_data (data_manager self) gpi lon lat = Return df_dict →
  length df_dict ≠ 0 →
  (n, k) ∈ OD.keys (metrics_c self) →
  temp_matching self df_dict (temporal_ref self) n = Return md →
  get_result_names (ds_dict (data_manager self)) (temporal_ref self) k
    = Return names →
  result ∈ names →
  key_absent n k (dskey_of result) md →
  is_raise (process_point job results (gpi, lon, lat) self).2.
Proof.
  intros Hdata Hlen Hnk Hmd Hnames Hres Habs.
  unfold process_point, mbind at 1, M_bind, attr.
  unfold mbind at 1. unfold M_bind, attr.
  unfold mbind at 1. unfold M_bind, call. simpl. rewrite Hdata.
  rewrite decide_False by done.
  destruct (match_all df_dict self) as [[s1 t1] [e|matched_n]] eqn:Hmatch.
  { unfold mbind, M_bind. by rewrite Hmatch. }
  destruct (match_all_spec _ _ _ _ _ Hmatch) as (-> & _ & Hin).
  destruct (Hin _ Hnk) as (md' & Hmd' & Hget). simpl in Hmd'.
  rewrite Hmd in Hmd'. injection Hmd' as <-.
  erewrite bind_return by exact Hmatch.
  pose proof (process_metrics_absent self matched_n
    (if cell_based_jobs self then gpi_tuple (gpi, lon, lat) else job)
    results n k md names result Hnk Hget Hnames Hres Habs) as Hraise.
  by destruct (process_metrics _ _ _ self) as [[s2 t2] [e|r]].
Qed.

(** C2: when, at a grid point with data, the key of a requested result
    name is absent from the matched buckets, the lookup fails and [calc]
    raises: the result is not skipped. *)
Theorem absent_key_raises job self calls0 gpis lons lats gpi lon lat
    df_dict n k md names result :
  process_axes job self = (self, calls0, Return (gpis, lons, lats)) →
  (gpi, lon, lat) ∈ zip3 gpis lons lats →
  get_data (data_manager self) gpi lon lat = Return df_dict →
  length df_dict ≠ 0 →
  (n, k) ∈ OD.keys (metrics_c self) →
  temp_matching self df_dict (temporal_ref self) n = Return md →
  get_result_names (ds_dict (data_manager self)) (temporal_ref self) k
    = Return names →
  result ∈ names →
  key_absent n k (dskey_of result) md →
  is_raise (calc job self).2.
Proof.
  intros Haxes Hp Hdata Hlen Hnk Hmd Hnames Hres Habs.
  unfold calc. apply bind_is_raise; [apply collect_obeys |].
  intros results Hcollect. exfalso.
  assert (is_raise (collect job self).2) as Hraise; [| by rewrite Hcollect in Hraise].
  unfold collect. erewrite bind_return by exact Haxes. simpl.
  apply (foldM_is_raise _ _ (gpi, lon, lat)); [| done |].
  - intros a y. eapply proj1, process_point_obeys.
  - intros a. by eapply process_point_absent.
Qed.

(** ** The aggregation of the collected results *)

(** [e] is what [np.array] makes, for the dtype [dt], of the first
    element of the value that the point result [r] has for [field]. *)
Definition field_of (field : string) (dt : dtype) (r : PointResult) (e : scalar)
    : Prop :=
  ∃ value x, OD.get field r = Some value ∧ arr_elems value !! 0 = Some x ∧
             np_cast dt x = Return e.

(** [fields] is the compact form of what was collected for [key]: it has
    the field names of the first collected point result and no others,
    and for each of them an array of the dtype of the first value, with one
    element for each collected point result, in their order. *)
Definition compacted (results : Results) (key : ResultName)
    (fields : odict string ndarray) : Prop :=
  ∃ collected first,
    OD.get key results = Some collected ∧ collected !! 0 = Some first ∧
    (∀ field, OD.get field first = None → OD.get field fields = None) ∧
    (∀ field value, OD.get field first = Some value →
       ∃ array, OD.get field fields = Some array ∧
                arr_dtype array = arr_dtype value ∧
                Forall2 (field_of field (arr_dtype value)) collected
                        (arr_elems array)).

Lemma field_entries_spec field (collected : list PointResult) entries :
  field_entries field collected = Return entries →
  Forall2 (λ r x, ∃ value, OD.get field r = Some value ∧
                           arr_elems value !! 0 = Some x) collected entries.
Proof.
  unfold field_entries. intros Hfold.
  apply (foldO_inv (λ done entries,
           Forall2 (λ r x, ∃ value, OD.get field r = Some value ∧
                                    arr_elems value !! 0 = Some x) done entries))
    in Hfold; [done | constructor |].
  intros done r acc acc' Hacc. unfold OD.getitem, getidx.
  destruct (OD.get field r) as [value|] eqn:Hv; simpl; [| done].
  destruct (arr_elems value !! 0) as [x|] eqn:Hx; simpl; [| done].
  intros [= <-]. apply Forall2_app; [done |]. repeat constructor. eauto.
Qed.

Lemma field_entries_raise field (collected : list PointResult) later :
  later ∈ collected → OD.get field later = None →
  is_raise (field_entries field collected).
Proof.
  intros Hin Hnone. unfold field_entries.
  apply (foldO_raise _ _ later Hin). intros entries.
  unfold OD.getitem. by rewrite Hnone.
Qed.

Lemma field_array_spec results key field array :
  field_array results key field = Return array →
  ∃ collected first value,
    OD.get key results = Some collected ∧ collected !! 0 = Some first ∧
    OD.get field first = Some value ∧
    arr_dtype array = arr_dtype value ∧
    Forall2 (field_of field (arr_dtype value)) collected (arr_elems array).
Proof.
  unfold field_array, OD.getitem, getidx, np_array.
  destruct (OD.get key results) as [collected|] eqn:Hkey; simpl; [| done].
  destruct (field_entries field collected) as [e|entries] eqn:Hent; simpl; [done |].
  destruct (collected !! 0) as [first|] eqn:Hfirst; simpl; [| done].
  destruct (OD.get field first) as [value|] eqn:Hval; simpl; [| done].
  destruct (mapO _ entries) as [e|elems] eqn:Hmap; simpl; [done |].
  intros [= <-]. exists collected, first, value. split_and!; try done. simpl.
  apply field_entries_spec in Hent. apply mapO_Forall2 in Hmap.
  clear Hkey Hfirst. revert elems Hmap.
  induction Hent as [|r x rs xs (v & Hv & Hx) _ IH]; intros elems Hmap.
  - inversion Hmap. constructor.
  - inversion Hmap as [|? e ? es He Hes]; subst. constructor; [| by apply IH].
    by exists v, x.
Qed.

Lemma compact_key_spec results compact key compact' :
  compact_key results compact key = Return compact' →
  ∃ fields, compact' = OD.set key fields compact ∧ compacted results key fields.
Proof.
  unfold compact_key, OD.getitem, getidx.
  destruct (OD.get key results) as [collected|] eqn:Hkey; simpl; [| done].
  destruct (collected !! 0) as [first|] eqn:Hfirst; simpl; [| done].
  intros Hfold.
  apply (foldO_inv (λ done c, ∃ fields,
           c = OD.set key fields compact ∧
           (∀ field, field ∉ done → OD.get field fields = None) ∧
           (∀ field, field ∈ done →
              ∃ array value, OD.get field fields = Some array ∧
                OD.get field first = Some value ∧
                arr_dtype array = arr_dtype value ∧
                Forall2 (field_of field (arr_dtype value)) collected
                        (arr_elems array)))) in Hfold.
  - destruct Hfold as (fields & -> & Hout & Hin). exists fields. split; [done |].
    exists collected, first. split_and!; try done.
    + intros field Hnone. apply Hout. by apply get_None_keys.
    + intros field value Hval.
      destruct (Hin field) as (array & value' & Harr & Hval' & Hdt & Hall).
      { apply dec_stable. rewrite <-get_None_keys. congruence. }
      rewrite Hval in Hval'. injection Hval' as <-. eauto.
  - exists []. split_and!; try done. intros field Hf. by apply elem_of_nil in Hf.
  - intros done field c c' (fields & -> & Hout & Hin). unfold compact_field.
    destruct (field_array results key field) as [e|array] eqn:Harr; simpl; [done |].
    unfold OD.getitem. rewrite get_set_eq. simpl. intros [= <-].
    apply field_array_spec in Harr
      as (collected' & first' & value & Hkey' & Hfirst' & Hval & Hdt & Hall).
    rewrite Hkey in Hkey'. injection Hkey' as <-.
    rewrite Hfirst in Hfirst'. injection Hfirst' as <-.
    exists (OD.set field array fields). split_and!.
    + by rewrite set_set.
    + intros field' [Hnd Hne]%not_elem_of_app.
      rewrite get_set_ne; [by apply Hout |].
      intros ->. apply Hne. left.
    + intros field' Hf. destruct (decide (field' = field)) as [->|Hne].
      * exists array, value. by rewrite get_set_eq.
      * rewrite get_set_ne by done. apply Hin.
        apply elem_of_app in Hf as [Hf|Hf]; [done |].
        by apply list_elem_of_singleton in Hf.
Qed.

Lemma aggregate_spec results compact :
  aggregate results = Return compact →
  ∀ key, key ∈ OD.keys results →
    ∃ fields, OD.get key compact = Some fields ∧ compacted results key fields.
Proof.
  unfold aggregate. intros Hfold.
  refine (foldO_inv (λ done c, ∀ key, key ∈ done →
            ∃ fields, OD.get key c = Some fields ∧ compacted results key fields)
            _ _ _ _ _ _ Hfold).
  - intros key Hkey. by apply elem_of_nil in Hkey.
  - intros done key c c' Hdone (fields & -> & Hfields)%compact_key_spec key' Hkey'.
    destruct (decide (key' = key)) as [->|Hne].
    + exists fields. by rewrite get_set_eq.
    + rewrite get_set_ne by done. apply Hdone.
      apply elem_of_app in Hkey' as [Hk|Hk]; [done |].
      by apply list_elem_of_singleton in Hk.
Qed.

Lemma aggregate_raise results key collected first later field :
  OD.get key results = Some collected → collected !! 0 = Some first →
  later ∈ collected → OD.get field first ≠ None → OD.get field later = None →
  is_raise (aggregate results).
Proof.
  intros Hkey Hfirst Hlater Hfield Hnone. unfold aggregate.
  apply (foldO_raise _ _ key).
  { apply dec_stable. rewrite <-get_None_keys. congruence. }
  intros compact. unfold compact_key, OD.getitem, getidx.
  rewrite Hkey. simpl. rewrite Hfirst. simpl.
  apply (foldO_raise _ _ field).
  { apply dec_stable. by rewrite <-get_None_keys. }
  intros c. unfold compact_field, field_array, OD.getitem. rewrite Hkey. simpl.
  pose proof (field_entries_raise field collected later Hlater Hnone) as Hraise.
  by destruct (field_entries field collected).
Qed.

Lemma calc_collect job self s calls results :
  collect job self = (s, calls, Return results) →
  calc job self = (s, calls, aggregate results).
Proof.
  intros Hcollect. unfold calc, mbind, M_bind. rewrite Hcollect.
  unfold lift. by rewrite app_nil_r.
Qed.

(** C10: the field names of the compact result of a result name are
    those of its first collected point result, so that a field name of
    later point results only is left out; and when a later point result
    lacks a field name of the first one, [calc] raises. *)
Theorem first_result_fields job self s calls results key collected first :
  collect job self = (s, calls, Return results) →
  OD.get key results = Some collected →
  collected !! 0 = Some first →
  (∀ compact, (calc job self).2 = Return compact →
     ∃ fields, OD.get key compact = Some fields ∧
       ∀ field, OD.get field first = None → OD.get field fields = None) ∧
  (∀ later field, later ∈ collected →
     OD.get field first ≠ None → OD.get field later = None →
     is_raise (calc job self).2).
Proof.
  intros Hcollect%calc_collect Hkey Hfirst. rewrite Hcollect. simpl. split.
  - intros compact Hagg.
    destruct (aggregate_spec _ _ Hagg key)
      as (fields & Hget & collected' & first' & Hkey' & Hfirst' & Hnone & _).
    { apply dec_stable. rewrite <-get_None_keys. congruence. }
    rewrite Hkey in Hkey'. injection Hkey' as <-.
    rewrite Hfirst in Hfirst'. injection Hfirst' as <-. eauto.
  - intros later field. by eapply aggregate_raise.
Qed.

(** ** The collected results and the metrics calls *)

(** What the metrics calculators returned for [key], call by call: read
    off the calls, which hold the arguments of each one. *)
Definition metrics_returns (self : Validation) (key : ResultName)
    (calls : list event) : list PointResult :=
  omap (λ ev,
          match ev with
          | EvMetrics result nk data gpi_meta =>
              if decide (result = key) then
                match OD.get nk (metrics_c self) with
                | Some metrics_calculator =>
                    match metrics_calculator data gpi_meta with
                    | Return point_result => Some point_result
                    | Raise _ => None
                    end
                | None => None
                end
              else None
          | _ => None
          end) calls.

Definition no_metrics (ev : event) : Prop :=
  match ev with EvMetrics _ _ _ _ => False | _ => True end.

(** [results] holds, for every result name, what the metrics calculators
    returned for it in [calls], and nothing for a result name without a
    call. *)
Definition results_of_calls (self : Validation) (results : Results)
    (calls : list event) : Prop :=
  ∀ key, OD.get key results =
           match metrics_returns self key calls with
           | [] => None
           | returned => Some returned
           end.

Lemma metrics_returns_app self key calls1 calls2 :
  metrics_returns self key (calls1 ++ calls2) =
    metrics_returns self key calls1 ++ metrics_returns self key calls2.
Proof. apply omap_app. Qed.

Lemma metrics_returns_no_metrics self key calls :
  Forall no_metrics calls → metrics_returns self key calls = [].
Proof.
  induction 1 as [|ev calls Hev _ IH]; [done |].
  change (ev :: calls) with ([ev] ++ calls).
  rewrite metrics_returns_app, IH. by destruct ev.
Qed.

Lemma metrics_returns_call self key result nk data gpi_meta calculator point_result :
  OD.get nk (metrics_c self) = Some calculator →
  calculator data gpi_meta = Return point_result →
  metrics_returns self key [EvMetrics result nk data gpi_meta] =
    if decide (result = key) then [point_result] else [].
Proof.
  intros Hcalc Hret. unfold metrics_returns. simpl.
  destruct (decide (result = key)); [| done]. by rewrite Hcalc, Hret.
Qed.

Lemma results_of_calls_skip self results calls calls' :
  Forall no_metrics calls' →
  results_of_calls self results calls →
  results_of_calls self results (calls ++ calls').
Proof.
  intros Hno Hres key.
  by rewrite metrics_returns_app, (metrics_returns_no_metrics _ _ _ Hno), app_nil_r.
Qed.

Lemma process_result_inv self n k md gpi_meta results result s t results' calls0 :
  results_of_calls self results calls0 →
  process_result n k md gpi_meta results result self = (s, t, Return results') →
  results_of_calls self results' (calls0 ++ t).
Proof.
  intros Hres. unfold process_result. unfold mbind at 1. unfold M_bind, lift.
  destruct (prepare_data n k md result) as [e|data]; simpl; [done |].
  destruct (decide (df_len data = 0)) as [_|_].
  { intros [= <- <- <-]. by rewrite app_nil_r. }
  unfold mbind at 1. unfold M_bind.
  destruct (scaling_stage_obeys no_metrics self result data) as [Hs Hno]; [done |].
  destruct (scaling_stage result data self) as [[s1 t1] [e|[data'|]]];
    simpl in Hs, Hno; subst s1; [done | |].
  - unfold mbind, M_bind, attr, lift, call, mret, M_ret, OD.getitem. simpl.
    destruct (OD.get (n, k) (metrics_c self)) as [calculator|] eqn:Hcalc;
      simpl; [| done].
    set (results1 := if OD.mem result results then results
                     else OD.set result [] results).
    assert (OD.get result results1 = Some (metrics_returns self result calls0)
            ∧ ∀ key, key ≠ result → OD.get key results1 = OD.get key results)
      as [Hcollected Hother].
    { subst results1. unfold OD.mem. pose proof (Hres result) as Hr.
      destruct (OD.get result results) as [rs|] eqn:Hget.
      - split; [| done]. rewrite Hget.
        by destruct (metrics_returns self result calls0).
      - rewrite get_set_eq. split.
        + by destruct (metrics_returns self result calls0).
        + intros key Hne. by rewrite get_set_ne. }
    rewrite Hcollected. simpl.
    destruct (calculator data' gpi_meta) as [e|point_result] eqn:Hret;
      simpl; [done |].
    intros [= <- <- <-] key.
    rewrite !metrics_returns_app, (metrics_returns_no_metrics _ _ _ Hno).
    rewrite (metrics_returns_call _ _ _ _ _ _ _ _ Hcalc Hret). simpl.
    destruct (decide (result = key)) as [<-|Hne].
    + rewrite get_set_eq. simpl.
      by destruct (metrics_returns self result calls0).
    + rewrite get_set_ne by done. rewrite Hother by done.
      rewrite Hres. simpl. by rewrite !app_nil_r.
  - intros [= <- <- <-]. rewrite app_nil_r. by apply results_of_calls_skip.
Qed.

Lemma process_metrics_inv self matched_n gpi_meta results s t results' calls0 :
  results_of_calls self results calls0 →
  process_metrics matched_n gpi_meta results self = (s, t, Return results') →
  results_of_calls self results' (calls0 ++ t).
Proof.
  intros Hres. unfold process_metrics. unfold mbind at 1. unfold M_bind, attr.
  destruct (foldM _ results (OD.keys (metrics_c self)) self)
    as [[s1 t1] r1] eqn:Hloop.
  simpl. intros [= <- <- ->]. revert Hres Hloop.
  apply foldM_inv.
  - intros a nk _. eapply proj1.
    apply (obeys_bind (λ _, True)); [apply obeys_lift |]. intros ? _.
    apply obeys_bind; [apply obeys_attr |]. intros ? _.
    apply obeys_bind; [apply obeys_attr |]. intros ? _.
    apply obeys_bind; [by apply obeys_call |]. intros ? _.
    apply obeys_foldM. intros ? ? _. by apply process_result_obeys.
  - intros a nk t0 s2 t2 a' _ Ha.
    unfold mbind at 1. unfold M_bind, lift.
    destruct (OD.getitem nk matched_n) as [e|md]; simpl; [done |].
    unfold mbind, M_bind, attr, call. simpl.
    destruct (get_result_names _ _ _) as [e|names]; simpl; [done |].
    destruct (foldM (process_result nk.1 nk.2 md gpi_meta) a names self)
      as [[s3 t3] r3] eqn:Hnames.
    intros [= <- <- ->].
    replace (t0 ++ EvResultNames (temporal_ref self) nk.2 :: t3)
      with ((t0 ++ [EvResultNames (temporal_ref self) nk.2]) ++ t3)
      by by rewrite <-app_assoc.
    revert Hnames. apply foldM_inv.
    + intros a0 x _. by eapply proj1, (process_result_obeys (λ _, True)).
    + intros a0 x t4 s4 t5 a5 _. apply process_result_inv.
    + apply results_of_calls_skip; [| done]. by repeat constructor.
Qed.

Lemma process_point_inv self job results gpi_info s t results' calls0 :
  results_of_calls self results calls0 →
  process_point job results gpi_info self = (s, t, Return results') →
  results_of_calls self results' (calls0 ++ t).
Proof.
  intros Hres. unfold process_point.
  unfold mbind at 1. unfold M_bind, attr.
  unfold mbind at 1. unfold M_bind, attr.
  unfold mbind at 1. unfold M_bind, call. simpl.
  destruct (get_data _ _ _ _) as [e|df_dict]; [done |].
  destruct (decide (length df_dict = 0)) as [_|_].
  { intros [= <- <- <-]. apply results_of_calls_skip; [| done].
    by repeat constructor. }
  unfold mbind at 1. unfold M_bind.
  destruct (match_all_obeys no_metrics self df_dict) as [Hs Hno]; [done |].
  destruct (match_all df_dict self) as [[s1 t1] [e|matched_n]];
    simpl in Hs, Hno; subst s1; [done |].
  destruct (process_metrics matched_n _ results self) as [[s2 t2] r2] eqn:Hpm.
  intros [= <- <- ->].
  replace (calls0 ++ EvGetData gpi_info.1.1 gpi_info.1.2 gpi_info.2 :: t1 ++ t2)
    with ((calls0 ++ EvGetData gpi_info.1.1 gpi_info.1.2 gpi_info.2 :: t1) ++ t2)
    by by rewrite <-app_assoc.
  eapply process_metrics_inv; [| exact Hpm].
  apply results_of_calls_skip; [| done]. by constructor.
Qed.

Lemma collect_inv self job s calls results :
  collect job self = (s, calls, Return results) →
  results_of_calls self results calls.
Proof.
  unfold collect. unfold mbind at 1. unfold M_bind.
  assert (obeys no_metrics self (process_axes job)) as [Hs Hno].
  { unfold process_axes. repeat obeys_step; done. }
  destruct (process_axes job self) as [[s1 t1] [e|axes]];
    simpl in Hs, Hno; subst s1; [done |].
  destruct (foldM (process_point job) [] _ self) as [[s2 t2] r2] eqn:Hloop.
  intros [= <- <- ->]. revert Hloop. apply foldM_inv.
  - intros a p _. eapply proj1, process_point_obeys.
  - intros a p t0 s3 t3 a3 _. apply process_point_inv.
  - intros key. by rewrite (metrics_returns_no_metrics _ _ _ Hno).
Qed.

(** For a result name with at least one point result, the compact
    result has, for each field name of the first point result, an array
    of the dtype of the first value whose elements are, in the order of
    the metrics calls, the first elements of the values that the point
    results have for that field, converted to that dtype. *)
Lemma compact_result_arrays job self s calls compact key first :
  calc job self = (s, calls, Return compact) →
  metrics_returns self key calls !! 0 = Some first →
  ∃ fields, OD.get key compact = Some fields ∧
    ∀ field value, OD.get field first = Some value →
      ∃ array, OD.get field fields = Some array ∧
        arr_dtype array = arr_dtype value ∧
        Forall2 (field_of field (arr_dtype value))
                (metrics_returns self key calls) (arr_elems array).
Proof.
  intros Hcalc Hfirst.
  destruct (collect job self) as [[s1 t1] [e|results]] eqn:Hcollect.
  { unfold calc, mbind, M_bind in Hcalc. by rewrite Hcollect in Hcalc. }
  rewrite (calc_collect _ _ _ _ _ Hcollect) in Hcalc.
  injection Hcalc as -> -> Hagg.
  pose proof (collect_inv _ _ _ _ _ Hcollect key) as Hkey.
  destruct (metrics_returns self key calls) as [|r rs] eqn:Hret; [done |].
  destruct (aggregate_spec _ _ Hagg key)
    as (fields & Hget & collected & first' & Hkey' & Hfirst' & _ & Hfields).
  { apply dec_stable. rewrite <-get_None_keys. congruence. }
  rewrite Hkey in Hkey'. injection Hkey' as <-.
  rewrite Hfirst in Hfirst'. injection Hfirst' as <-.
  exists fields. split; [done |]. apply Hfields.
Qed.

(** * Further properties of [calc] *)

(** ** The projection of the matched columns *)

Lemma mapO_return {A B} (g : A → outcome B) (l : list A) :
  (∀ x, x ∈ l → is_return (g x)) → is_return (mapO g l).
Proof.
  induction l as [|x l IH]; intros Hg; simpl; [done |].
  assert (is_return (g x)) as Hx by (apply Hg; left).
  destruct (g x) as [e|y]; simpl; [done |].
  assert (is_return (mapO g l)) as Hl.
  { apply IH. intros z Hz. apply Hg. by right. }
  by destruct (mapO g l).
Qed.

(** X1: the prepared table has the rows of the selected bucket, and its
    column at each position holds the values that the bucket has for the
    (dataset, column) pair at that position of the result name. *)
Theorem prepared_columns_of_bucket n k md (result : ResultName) data :
  prepare_data n k md result = Return data →
  ∃ bucket, select_data n k (dskey_of result) md = Return bucket ∧
    df_len data = df_len bucket ∧
    Forall2 (λ r c, OD.get r (df_columns bucket) = Some c.2)
            result (df_columns data).
Proof.
  unfold prepare_data.
  destruct (select_data _ _ _ _) as [e|bucket]; simpl; [done |].
  unfold select_columns.
  destruct (mapO _ result) as [e|cols] eqn:Hcols; simpl; [done |].
  intros [= <-]. exists bucket. split_and!; try done. simpl.
  apply mapO_Forall2 in Hcols. rewrite <-list_fmap_compose.
  apply Forall2_fmap_r.
  induction Hcols as [|r c rs cs Hr _ IH]; constructor; [| done].
  unfold OD.getitem in Hr.
  destruct (OD.get r (df_columns bucket)) as [v|]; simpl in Hr; [| done].
  by injection Hr as <-.
Qed.

(** X2: for [n = k], when the dataset names of the result name are a
    key of the matched buckets and the bucket has every requested column,
    the preparation goes through, with the rows of that bucket and one
    column for each position. *)
Theorem exact_key_prepared n md (result : ResultName) bucket :
  OD.get result.*1 md = Some bucket →
  (∀ r, r ∈ result → OD.get r (df_columns bucket) ≠ None) →
  ∃ data, prepare_data n n md result = Return data ∧
    df_len data = df_len bucket ∧
    length (df_columns data) = length result.
Proof.
  intros Hkey Hcols. unfold prepare_data, select_data.
  rewrite decide_True by done. rewrite dskey_of_names.
  unfold OD.getitem at 1. rewrite Hkey. simpl. unfold select_columns.
  destruct (mapO (λ x, c ← OD.getitem x (df_columns bucket); Return (x, c)) result)
    as [e|cols] eqn:Hmap.
  { pose proof (mapO_return
      (λ x, c ← OD.getitem x (df_columns bucket); Return (x, c)) result) as Hret.
    rewrite Hmap in Hret. destruct Hret. intros r Hr. specialize (Hcols r Hr).
    unfold OD.getitem. by destruct (OD.get r (df_columns bucket)). }
  simpl. eexists. split_and!; try done. simpl.
  apply mapO_Forall2, Forall2_length in Hmap. by rewrite !length_fmap.
Qed.

(** ** One result name at one grid point *)

(** X3: a prepared table without rows is passed over: no scaling, no
    metrics call, the collected results are as before, and the loop over
    the result names goes on as if this result name had not been there. *)
Theorem empty_table_passed_over self n k md gpi_meta results result names data :
  prepare_data n k md result = Return data →
  df_len data = 0 →
  process_result n k md gpi_meta results result self = (self, [], Return results) ∧
  foldM (process_result n k md gpi_meta) results (result :: names) self =
    foldM (process_result n k md gpi_meta) results names self.
Proof.
  intros Hprep Hlen.
  assert (process_result n k md gpi_meta results result self =
            (self, [], Return results)) as Hstep.
  { unfold process_result, mbind at 1, M_bind, lift.
    rewrite Hprep. simpl. by rewrite decide_True. }
  split; [done |].
  change (foldM (process_result n k md gpi_meta) results (result :: names))
    with (process_result n k md gpi_meta results result
            ≫= λ a, foldM (process_result n k md gpi_meta) a names).
  rewrite (bind_return _ _ _ _ _ Hstep). simpl.
  by destruct (foldM (process_result n k md gpi_meta) results names self)
    as [[s2 t2] r2].
Qed.

Lemma process_result_scaled self n k md gpi_meta results result data calls scaled :
  prepare_data n k md result = Return data →
  df_len data ≠ 0 →
  scaling_stage result data self = (self, calls, Return (Some scaled)) →
  process_result n k md gpi_meta results result self =
    (let results1 := if OD.mem result results then results
                     else OD.set result [] results in
     match OD.get (n, k) (metrics_c self) with
     | None => (self, calls, Raise KeyError)
     | Some metrics_calculator =>
         match metrics_calculator scaled gpi_meta with
         | Raise e =>
             (self, calls ++ [EvMetrics result (n, k) scaled gpi_meta], Raise e)
         | Return point_result =>
             (self, calls ++ [EvMetrics result (n, k) scaled gpi_meta],
              Return (OD.set result
                        (default [] (OD.get result results) ++ [point_result])
                        results1))
         end
     end).
Proof.
  intros Hprep Hlen Hscaled. unfold process_result.
  unfold mbind at 1. unfold M_bind, lift. rewrite Hprep. simpl.
  rewrite decide_False by done.
  unfold mbind at 1. unfold M_bind. rewrite Hscaled.
  unfold mbind, M_bind, attr, lift, call, mret, M_ret, OD.getitem. simpl.
  destruct (OD.get (n, k) (metrics_c self)) as [calculator|]; simpl;
    [| by rewrite app_nil_r].
  assert (OD.get result
            (if OD.mem result results then results else OD.set result [] results)
          = Some (default [] (OD.get result results))) as ->.
  { unfold OD.mem. destruct (OD.get result results) as [rs|] eqn:Hget; [done |].
    by rewrite get_set_eq. }
  simpl. by destruct (calculator scaled gpi_meta).
Qed.

(** X4: when the table is prepared, has rows and is scaled, and the
    metrics calculator of [(n, k)] returns, its point result is appended to
    what was collected for this result name; what was collected for the
    other result names stays as it is. *)
Theorem point_result_appended self n k md gpi_meta results result data calls
    scaled metrics_calculator point_result :
  prepare_data n k md result = Return data →
  df_len data ≠ 0 →
  scaling_stage result data self = (self, calls, Return (Some scaled)) →
  OD.get (n, k) (metrics_c self) = Some metrics_calculator →
  metrics_calculator scaled gpi_meta = Return point_result →
  ∃ results',
    process_result n k md gpi_meta results result self =
      (self, calls ++ [EvMetrics result (n, k) scaled gpi_meta], Return results') ∧
    OD.get result results' =
      Some (default [] (OD.get result results) ++ [point_result]) ∧
    ∀ key, key ≠ result → OD.get key results' = OD.get key results.
Proof.
  intros Hprep Hlen Hscaled Hcalc Hret.
  rewrite (process_result_scaled _ _ _ _ _ _ _ _ _ _ Hprep Hlen Hscaled).
  simpl. rewrite Hcalc, Hret. eexists. split_and!; [done | |].
  - by rewrite get_set_eq.
  - intros key Hne. rewrite get_set_ne by done. unfold OD.mem.
    destruct (OD.get result results); [done |]. by rewrite get_set_ne.
Qed.

(** X5: an exception of the metrics calculator is not caught: the
    processing of the result name raises it, after the call. *)
Theorem metrics_exception_raised self n k md gpi_meta results result data calls
    scaled metrics_calculator e :
  prepare_data n k md result = Return data →
  df_len data ≠ 0 →
  scaling_stage result data self = (self, calls, Return (Some scaled)) →
  OD.get (n, k) (metrics_c self) = Some metrics_calculator →
  metrics_calculator scaled gpi_meta = Raise e →
  process_result n k md gpi_meta results result self =
    (self, calls ++ [EvMetrics result (n, k) scaled gpi_meta], Raise e).
Proof.
  intros Hprep Hlen Hscaled Hcalc Hret.
  rewrite (process_result_scaled _ _ _ _ _ _ _ _ _ _ Hprep Hlen Hscaled).
  simpl. by rewrite Hcalc, Hret.
Qed.

(** ** The scaling of one prepared table *)

Lemma rename_dict_not_requested (result : ResultName) ds :
  ds ∉ result.*1 → OD.get ds (rename_dict_of result) = None.
Proof.
  intros Hnin. unfold rename_dict_of. by rewrite enumerate_result_other.
Qed.

(** X6: when scaling is configured and the scaling reference is not a
    dataset of the result name, the lookup of its role label raises
    [KeyError], before [scale] is called. *)
Theorem scaling_ref_not_requested_raises self n k md gpi_meta results
    (result : ResultName) data method :
  prepare_data n k md result = Return data →
  df_len data ≠ 0 →
  scaling self = Some method →
  scaling_ref self ∉ result.*1 →
  process_result n k md gpi_meta results result self = (self, [], Raise KeyError).
Proof.
  intros Hprep Hlen Hm Hnin. unfold process_result.
  unfold mbind at 1. unfold M_bind, lift. rewrite Hprep. simpl.
  rewrite decide_False by done.
  unfold scaling_stage, mbind, M_bind, attr, lift, OD.getitem. simpl.
  rewrite Hm. simpl. by rewrite rename_dict_not_requested.
Qed.

Lemma list_index_NoDup `{EqDecision A} (l : list A) i x :
  NoDup l → l !! i = Some x → list_index x l = Return i.
Proof.
  revert i. induction l as [|y l IH]; intros i Hnd Hi; [done |].
  apply NoDup_cons in Hnd as [Hy Hnd]. simpl. destruct i as [|i]; simpl in Hi.
  - injection Hi as ->. by rewrite decide_True.
  - rewrite decide_False.
    + by rewrite (IH i).
    + intros ->. apply Hy. by eapply list_elem_of_lookup_2.
Qed.

(** X7: for a result name without a repeated dataset name, [scale] is
    called with the position that the scaling reference has in the result
    name as [reference_index]. *)
Theorem scale_gets_position_of_scaling_ref self n k md (result : ResultName)
    data method i r :
  NoDup result.*1 →
  result !! i = Some r →
  r.1 = scaling_ref self →
  prepare_data n k md result = Return data →
  scaling self = Some method →
  (scaling_stage result data self).1.2 = [EvScale data method i].
Proof.
  intros Hnd Hi Hr Hprep Hm.
  assert ((df_columns data).*1 = f <$> seq 0 (length result)) as Hlabels.
  { rewrite (prepare_data_labels _ _ _ _ _ Hprep).
    apply list_eq. intros j. rewrite !list_lookup_fmap.
    destruct (result !! j) as [rj|] eqn:Hj; simpl.
    - rewrite lookup_seq_lt by by eapply lookup_lt_Some. simpl.
      unfold rename_dict_of.
      by rewrite (enumerate_result_role 0 result [] [] j rj).
    - rewrite lookup_seq_ge; [done |]. by apply lookup_ge_None. }
  unfold scaling_stage, mbind, M_bind, attr, lift, OD.getitem. simpl.
  rewrite Hm. simpl. unfold rename_dict_of. rewrite <-Hr.
  rewrite (enumerate_result_role 0 result [] [] i r) by done. simpl.
  rewrite (list_index_NoDup _ i).
  - simpl. unfold try_except_ValueError, call.
    by destruct (scale data method i) as [[]|d].
  - rewrite Hlabels. apply NoDup_fmap_2; [| apply NoDup_seq].
    intros a b. apply f_inj.
  - rewrite Hlabels, list_lookup_fmap, lookup_seq_lt; [done |].
    by eapply lookup_lt_Some.
Qed.

(** X8: only [ValueError] is caught around [scale]: any other exception
    it raises is raised by the processing of the result name, and no metrics
    calculator is called. *)
Theorem scale_other_exception_raised self n k md gpi_meta results result
    data method label idx e :
  prepare_data n k md result = Return data →
  df_len data ≠ 0 →
  scaling self = Some method →
  OD.getitem (scaling_ref self) (rename_dict_of result) = Return label →
  list_index label (df_columns data).*1 = Return idx →
  scale data method idx = Raise e →
  e ≠ ValueError →
  process_result n k md gpi_meta results result self =
    (self, [EvScale data method idx], Raise e).
Proof.
  intros Hprep Hlen Hm Hlabel Hidx Hscale Hne. unfold process_result.
  unfold mbind at 1. unfold M_bind, lift. rewrite Hprep. simpl.
  rewrite decide_False by done.
  unfold scaling_stage, mbind, M_bind, attr, lift, try_except_ValueError, call.
  simpl. rewrite Hm. simpl. rewrite Hlabel. simpl. rewrite Hidx. simpl.
  rewrite Hscale. by destruct e.
Qed.

(** ** Where the scaling and metrics calls of [calc] come from *)

(** What a table [scaled] given to a metrics calculator for [result] and
    the key [nk] is: the table prepared from the buckets that the matcher
    returned for [nk.1] at some point, which has rows, after the configured
    scaling (itself when scaling is off). *)
Definition metrics_table_of (self : Validation) (result : ResultName)
    (nk : nat * nat) (scaled : DataFrame string) : Prop :=
  ∃ df_dict md data,
    temp_matching self df_dict (temporal_ref self) nk.1 = Return md ∧
    prepare_data nk.1 nk.2 md result = Return data ∧
    df_len data ≠ 0 ∧
    match scaling self with
    | None => scaled = data
    | Some method => ∃ idx, scale data method idx = Return scaled
    end.

Definition call_of (self : Validation) (ev : event) : Prop :=
  match ev with
  | EvScale data method _ => scaling self = Some method ∧ df_len data ≠ 0
  | EvMetrics result nk scaled _ =>
      nk ∈ OD.keys (metrics_c self) ∧
      (∃ names,
         get_result_names (ds_dict (data_manager self)) (temporal_ref self) nk.2
           = Return names ∧ result ∈ names) ∧
      metrics_table_of self result nk scaled
  | _ => True
  end.

Lemma scaling_stage_cases self result data :
  (scaling_stage result data self).1.1 = self ∧
  Forall (λ ev, ∃ method idx, ev = EvScale data method idx ∧
                              scaling self = Some method)
         (scaling_stage result data self).1.2 ∧
  ∀ scaled, (scaling_stage result data self).2 = Return (Some scaled) →
    match scaling self with
    | None => scaled = data
    | Some method => ∃ idx, scale data method idx = Return scaled
    end.
Proof.
  unfold scaling_stage, mbind, M_bind, attr, lift, try_except_ValueError, call.
  simpl. destruct (scaling self) as [method|] eqn:Hm; simpl.
  - destruct (OD.getitem _ _) as [e|label]; simpl.
    { split_and!; [done | constructor | done]. }
    destruct (list_index _ _) as [e|idx]; simpl.
    { split_and!; [done | constructor | done]. }
    destruct (scale data method idx) as [[]|scaled'] eqn:Hscale; simpl;
      (split_and!; [done | repeat constructor; by eexists _, _ | try done]).
    intros scaled [= <-]. by exists idx.
  - split_and!; [done | constructor |]. by intros scaled [= <-].
Qed.

Lemma process_result_calls self n k md gpi_meta results result df_dict names :
  (n, k) ∈ OD.keys (metrics_c self) →
  get_result_names (ds_dict (data_manager self)) (temporal_ref self) k
    = Return names →
  result ∈ names →
  temp_matching self df_dict (temporal_ref self) n = Return md →
  obeys (call_of self) self (process_result n k md gpi_meta results result).
Proof.
  intros Hnk Hnames Hres Hmd. unfold process_result.
  apply obeys_bind; [apply obeys_lift |]. intros data Hdata. simpl in Hdata.
  destruct (decide (df_len data = 0)) as [|Hlen]; [apply obeys_ret |].
  destruct (scaling_stage_cases self result data) as (Hs & Hcalls & Hscaled).
  apply obeys_bind.
  { split; [done |]. eapply Forall_impl; [exact Hcalls |].
    by intros ev (method & idx & -> & Hm). }
  intros [scaled|] Hret; [| apply obeys_ret]. specialize (Hscaled scaled Hret).
  repeat obeys_step. simpl. split_and!; [done | by exists names |].
  by exists df_dict, md, data.
Qed.

Lemma process_metrics_calls self matched_n gpi_meta results :
  (∀ nk md, nk ∈ OD.keys (metrics_c self) → OD.get nk matched_n = Some md →
     ∃ df_dict, temp_matching self df_dict (temporal_ref self) nk.1 = Return md) →
  obeys (call_of self) self (process_metrics matched_n gpi_meta results).
Proof.
  intros Hmatched. unfold process_metrics.
  apply obeys_bind; [apply obeys_attr |]. intros mc [= <-].
  apply obeys_foldM. intros a [n k] Hnk.
  apply obeys_bind; [apply obeys_lift |]. intros md Hmd. simpl in Hmd.
  unfold OD.getitem in Hmd.
  destruct (OD.get (n, k) matched_n) as [md'|] eqn:Hget; simpl in Hmd; [| done].
  injection Hmd as ->. destruct (Hmatched _ _ Hnk Hget) as [df_dict Hdf].
  apply obeys_bind; [apply obeys_attr |]. intros dm [= <-].
  apply obeys_bind; [apply obeys_attr |]. intros ref [= <-].
  apply obeys_bind; [by apply obeys_call |]. intros names Hnames.
  simpl in Hnames. apply obeys_foldM. intros a' result Hres.
  by eapply process_result_calls.
Qed.

Lemma process_point_calls self job results gpi_info :
  obeys (call_of self) self (process_point job results gpi_info).
Proof.
  unfold process_point.
  apply obeys_bind; [apply obeys_attr |]. intros cell_based _.
  apply obeys_bind; [apply obeys_attr |]. intros dm _.
  apply obeys_bind; [by apply obeys_call |]. intros df_dict _.
  destruct (decide (length df_dict = 0)); [apply obeys_ret |].
  apply obeys_bind; [by apply match_all_obeys |]. intros matched_n Hmatch.
  apply process_metrics_calls. intros nk md Hnk Hget.
  destruct (match_all df_dict self) as [[s1 t1] r1] eqn:Hall.
  simpl in Hmatch. subst r1.
  destruct (match_all_spec _ _ _ _ _ Hall) as (_ & _ & Hin).
  destruct (Hin nk Hnk) as (md' & Hmd' & Hget').
  exists df_dict. congruence.
Qed.

Lemma calc_calls self job : obeys (call_of self) self (calc job).
Proof.
  unfold calc. apply obeys_bind; [| intros; apply obeys_lift].
  unfold collect. apply obeys_bind.
  { unfold process_axes. repeat obeys_step; done. }
  intros axes _. apply obeys_foldM. intros a p _. apply process_point_calls.
Qed.

(** X9: [calc] calls [scale] only with the configured method and only
    on tables that have rows; with scaling off it never calls it. *)
Theorem scale_calls_configured_nonempty job self data method idx :
  EvScale data method idx ∈ (calc job self).1.2 →
  scaling self = Some method ∧ df_len data ≠ 0.
Proof.
  intros Hev. destruct (calc_calls self job) as [_ Hcalls].
  rewrite Forall_forall in Hcalls. apply (Hcalls _ Hev).
Qed.

(** X10: every call of a metrics calculator that [calc] makes is for a
    key [(n, k)] of the metrics calculators and a result name that
    [get_result_names] returned for [k]; its table is prepared from what
    the matcher returned for [n], has rows before the scaling, and is
    scaled when scaling is configured. *)
Theorem metrics_calls_provenance job self result nk scaled gpi_meta :
  EvMetrics result nk scaled gpi_meta ∈ (calc job self).1.2 →
  nk ∈ OD.keys (metrics_c self) ∧
  (∃ names,
     get_result_names (ds_dict (data_manager self)) (temporal_ref self) nk.2
       = Return names ∧ result ∈ names) ∧
  ∃ df_dict md data,
    temp_matching self df_dict (temporal_ref self) nk.1 = Return md ∧
    prepare_data nk.1 nk.2 md result = Return data ∧
    df_len data ≠ 0 ∧
    match scaling self with
    | None => scaled = data
    | Some method => ∃ idx, scale data method idx = Return scaled
    end.
Proof.
  intros Hev. destruct (calc_calls self job) as [_ Hcalls].
  rewrite Forall_forall in Hcalls. apply (Hcalls _ Hev).
Qed.

(** ** The grid points of a job *)

(** X11: with point-based jobs, a job tuple of fewer than three elements
    makes [calc] raise [IndexError] before anything is read. *)
Theorem short_point_job_raises self xs :
  cell_based_jobs self = false →
  length xs < 3 →
  calc (PTuple xs) self = (self, [], Raise IndexError).
Proof.
  intros Hcb Hlen.
  unfold calc, collect, process_axes, mbind, M_bind, attr, lift.
  simpl. rewrite Hcb. simpl.
  destruct xs as [|a [|b [|c xs]]]; simpl in *; try done. lia.
Qed.

(** X12: with cell-based jobs, [calc] raises before anything is read
    when there is no reference grid or when the grid raises for the cell. *)
Theorem grid_failure_raises self job :
  cell_based_jobs self = true →
  (reference_grid (data_manager self) = None →
   calc job self = (self, [], Raise AttributeError)) ∧
  (∀ grid e, reference_grid (data_manager self) = Some grid →
     grid_points_for_cell grid job = Raise e →
     calc job self = (self, [EvGridPoints job], Raise e)).
Proof.
  intros Hcb. split.
  - intros Hgrid.
    unfold calc, collect, process_axes, mbind, M_bind, attr, lift.
    simpl. rewrite Hcb. simpl. by rewrite Hgrid.
  - intros grid e Hgrid Hraise.
    unfold calc, collect, process_axes, mbind, M_bind, attr, lift, call.
    simpl. rewrite Hcb. simpl. rewrite Hgrid. simpl. by rewrite Hraise.
Qed.

Definition is_get_data (ev : event) : bool :=
  match ev with EvGetData _ _ _ => true | _ => false end.

Lemma process_point_reads self job results gpi_info :
  (process_point job results gpi_info self).1.1 = self ∧
  filter is_get_data (process_point job results gpi_info self).1.2 =
    [EvGetData gpi_info.1.1 gpi_info.1.2 gpi_info.2].
Proof.
  split; [apply process_point_obeys |].
  unfold process_point, mbind at 1, M_bind, attr.
  unfold mbind at 1. unfold M_bind, attr.
  unfold mbind at 1. unfold M_bind, call. simpl.
  destruct (get_data _ _ _ _) as [e|df_dict]; [done |].
  destruct (decide (length df_dict = 0)); [done |].
  assert (obeys (λ ev, ¬ is_get_data ev) self
            (match_all df_dict ≫= λ matched_n,
               process_metrics matched_n
                 (if cell_based_jobs self then gpi_tuple gpi_info else job)
                 results)) as [_ Hno].
  { apply obeys_bind.
    - apply match_all_obeys. intros ? ? Hm. exact Hm.
    - intros matched_n _. apply process_metrics_obeys.
      + intros ? ? ? Hm. exact Hm.
      + intros ? ? Hm. exact Hm.
      + intros ? ? ? Hm. exact Hm. }
  destruct ((match_all df_dict ≫= _) self) as [[s2 t2] r2]. simpl in *.
  rewrite filter_cons_True by done. by rewrite (filter_none _ _ Hno).
Qed.

Lemma collect_loop_reads self job (l : list (num * num * num)) a s t a' :
  foldM (process_point job) a l self = (s, t, Return a') →
  filter is_get_data t =
    (λ p : num * num * num, EvGetData p.1.1 p.1.2 p.2) <$> l.
Proof.
  revert a s t a'. induction l as [|p l IH]; intros a s t a'; simpl.
  - by intros [= <- <- <-].
  - unfold mbind, M_bind.
    destruct (process_point_reads self job a p) as [Hs Hreads].
    destruct (process_point job a p self) as [[s1 t1] [e|a1]]; [done |].
    simpl in Hs, Hreads. subst s1.
    destruct (foldM (process_point job) a1 l self) as [[s2 t2] r2] eqn:Hloop.
    intros [= <- <- ->]. rewrite filter_app, Hreads.
    by rewrite (IH _ _ _ _ Hloop).
Qed.

(** X13: when [calc] returns, it has read the data of each grid point of
    the job exactly once, in the order of the grid points. *)
Theorem points_read_once_in_order job self calls0 gpis lons lats :
  process_axes job self = (self, calls0, Return (gpis, lons, lats)) →
  is_return (calc job self).2 →
  filter is_get_data (calc job self).1.2 =
    ((λ p : num * num * num, EvGetData p.1.1 p.1.2 p.2)
       <$> zip3 gpis lons lats).
Proof.
  intros Haxes Hret.
  assert (filter is_get_data calls0 = []) as Hcalls0.
  { assert (obeys (λ ev, ¬ is_get_data ev) self (process_axes job)) as [_ Hno].
    { unfold process_axes. repeat obeys_step; try done. intros Hm. exact Hm. }
    rewrite Haxes in Hno. by apply filter_none. }
  unfold calc, collect in *. unfold mbind at 1 2 in Hret.
  unfold mbind at 1 2. unfold M_bind in *. rewrite Haxes in *. simpl in *.
  destruct (foldM (process_point job) [] (zip3 gpis lons lats) self)
    as [[s2 t2] [e|results]] eqn:Hloop; [done |].
  simpl. unfold lift. simpl.
  rewrite app_nil_r, filter_app, Hcalls0. simpl.
  by eapply collect_loop_reads.
Qed.

(** ** The compact results *)

Lemma aggregate_no_other_keys results compact :
  aggregate results = Return compact →
  ∀ key, OD.get key results = None → OD.get key compact = None.
Proof.
  unfold aggregate. intros Hfold key Hkey. apply get_None_keys in Hkey.
  revert key Hkey.
  refine (foldO_inv (λ done c, ∀ key, key ∉ done → OD.get key c = None)
            _ _ _ _ _ _ Hfold); [done |].
  intros done key0 c c' Hdone (fields & -> & _)%compact_key_spec key.
  intros [Hnd Hne]%not_elem_of_app.
  rewrite get_set_ne; [by apply Hdone |]. intros ->. apply Hne. left.
Qed.

Lemma calc_returns job self s calls compact :
  calc job self = (s, calls, Return compact) →
  ∃ results, collect job self = (s, calls, Return results) ∧
             aggregate results = Return compact.
Proof.
  intros Hcalc.
  destruct (collect job self) as [[s1 t1] [e|results]] eqn:Hcollect.
  { unfold calc, mbind, M_bind in Hcalc. by rewrite Hcollect in Hcalc. }
  rewrite (calc_collect _ _ _ _ _ Hcollect) in Hcalc.
  injection Hcalc as -> -> Hagg. by exists results.
Qed.

(** X14: the compact result has an entry for a result name exactly when
    a metrics calculator returned a point result for it: what was passed
    over at every point does not appear. *)
Theorem compact_keys_are_called_names job self s calls compact key :
  calc job self = (s, calls, Return compact) →
  OD.get key compact = None ↔ metrics_returns self key calls = [].
Proof.
  intros (results & Hcollect & Hagg)%calc_returns.
  pose proof (collect_inv _ _ _ _ _ Hcollect key) as Hkey. split.
  - intros Hnone. destruct (metrics_returns self key calls) as [|r rs]; [done |].
    destruct (aggregate_spec _ _ Hagg key) as (fields & Hget & _).
    { apply dec_stable. rewrite <-get_None_keys. congruence. }
    congruence.
  - intros Hret. rewrite Hret in Hkey. by eapply aggregate_no_other_keys.
Qed.

(** X15: every array of the compact result of a result name has one
    element for each point result that the metrics calculators returned
    for it, so that the arrays of one result name are equally long. *)
Theorem compact_arrays_length job self s calls compact key fields field array :
  calc job self = (s, calls, Return compact) →
  OD.get key compact = Some fields →
  OD.get field fields = Some array →
  length (arr_elems array) = length (metrics_returns self key calls).
Proof.
  intros (results & Hcollect & Hagg)%calc_returns Hfields Harray.
  pose proof (collect_inv _ _ _ _ _ Hcollect key) as Hkey.
  destruct (OD.get key results) as [collected|] eqn:Hget.
  - destruct (aggregate_spec _ _ Hagg key)
      as (fields' & Hget' & collected' & first & Hc & Hfirst & Hnone & Hsome).
    { apply dec_stable. rewrite <-get_None_keys. congruence. }
    rewrite Hfields in Hget'. injection Hget' as <-.
    rewrite Hget in Hc. injection Hc as <-.
    assert (collected = metrics_returns self key calls) as <-.
    { destruct (metrics_returns self key calls); congruence. }
    destruct (OD.get field first) as [value|] eqn:Hvalue.
    + destruct (Hsome field value Hvalue) as (array' & Harray' & _ & Hall).
      rewrite Harray in Harray'. injection Harray' as <-.
      symmetry. by eapply Forall2_length.
    + rewrite (Hnone field Hvalue) in Harray. done.
  - by rewrite (aggregate_no_other_keys _ _ Hagg key Hget) in Hfields.
Qed.

Lemma field_entries_empty_raise field (collected : list PointResult) r value :
  r ∈ collected → OD.get field r = Some value → arr_elems value = [] →
  is_raise (field_entries field collected).
Proof.
  intros Hin Hvalue Hempty. unfold field_entries.
  apply (foldO_raise _ _ r Hin). intros entries.
  unfold OD.getitem, getidx. rewrite Hvalue. simpl. by rewrite Hempty.
Qed.

(** X16: when a collected point result has, for a field name of the
    first one, a value without elements, [calc] raises. *)
Theorem empty_value_raises job self s calls results key collected first r
    field value :
  collect job self = (s, calls, Return results) →
  OD.get key results = Some collected →
  collected !! 0 = Some first →
  OD.get field first ≠ None →
  r ∈ collected →
  OD.get field r = Some value →
  arr_elems value = [] →
  is_raise (calc job self).2.
Proof.
  intros Hcollect%calc_collect Hkey Hfirst Hfield Hr Hvalue Hempty.
  rewrite Hcollect. simpl. unfold aggregate.
  apply (foldO_raise _ _ key).
  { apply dec_stable. rewrite <-get_None_keys. congruence. }
  intros compact. unfold compact_key, OD.getitem, getidx.
  rewrite Hkey. simpl. rewrite Hfirst. simpl.
  apply (foldO_raise _ _ field).
  { apply dec_stable. by rewrite <-get_None_keys. }
  intros c. unfold compact_field, field_array, OD.getitem. rewrite Hkey. simpl.
  pose proof (field_entries_empty_raise field collected r value Hr Hvalue Hempty)
    as Hraise.
  by destruct (field_entries field collected).
Qed.

(** ** Role labels when a dataset name is repeated *)

Lemma enumerate_result_last i (result : ResultName) dskey rd ds :
  ds ∈ result.*1 →
  ∃ j r, result !! j = Some r ∧ r.1 = ds ∧
    (∀ j' r', j < j' → result !! j' = Some r' → r'.1 ≠ ds) ∧
    OD.get ds (enumerate_result i result dskey rd).2 = Some (f (i + j)).
Proof.
  revert i dskey rd. induction result as [|r0 result IH]; intros i dskey rd; csimpl.
  - intros Hin. by apply elem_of_nil in Hin.
  - intros Hin. destruct (decide (ds ∈ result.*1)) as [Hrest|Hrest].
    + destruct (IH (S i) (dskey ++ [r0.1]) (OD.set r0.1 (f i) rd) Hrest)
        as (j & r & Hj & Hr & Hlast & Hget).
      exists (S j), r. split_and!; try done.
      * intros [|j'] r' Hlt Hj'; [lia |]. apply (Hlast j'); [lia | done].
      * rewrite Hget. f_equal. f_equal. lia.
    + apply elem_of_cons in Hin as [->|Hin]; [| done].
      exists 0, r0. split_and!; try done.
      * intros [|j'] r' Hlt Hj'; [lia |]. simpl in Hj'. intros Heq.
        apply Hrest. rewrite <-Heq. apply list_elem_of_fmap.
        exists r'. split; [done |]. by eapply list_elem_of_lookup_2.
      * rewrite enumerate_result_other by done.
        by rewrite get_set_eq, Nat.add_0_r.
Qed.

(** X19: in the prepared table, the column at each position of the
    result name has the role label of the last position at which the
    dataset name of that position occurs in the result name. *)
Theorem relabel_by_last_position n k md (result : ResultName) data i r :
  prepare_data n k md result = Return data →
  result !! i = Some r →
  ∃ j r', result !! j = Some r' ∧ r'.1 = r.1 ∧
    (∀ j' r'', j < j' → result !! j' = Some r'' → r''.1 ≠ r.1) ∧
    (df_columns data).*1 !! i =
      Some (if decide (j = 0) then "ref" else "k" +:+ pretty j).
Proof.
  intros Hprep Hi.
  destruct (enumerate_result_last 0 result [] [] r.1)
    as (j & r' & Hj & Hr' & Hlast & Hget).
  { apply list_elem_of_fmap. exists r. split; [done |].
    by eapply list_elem_of_lookup_2. }
  exists j, r'. split_and!; try done.
  rewrite (prepare_data_labels _ _ _ _ _ Hprep), list_lookup_fmap, Hi. simpl.
  unfold rename_dict_of. rewrite Hget. simpl. f_equal. unfold f.
  destruct (decide (j = 0)) as [->|Hne]; [done |].
  rewrite bool_decide_eq_true_2; [done | lia].
Qed.

(** ** The calls of [calc], grid point by grid point *)

(** The calls that follow the read of a grid point while it is
    processed: no grid or read call, and metrics calls with [gpi_meta]. *)
Definition in_segment (gpi_meta : pyval) (ev : event) : Prop :=
  match ev with
  | EvGridPoints _ | EvGetData _ _ _ => False
  | EvMetrics _ _ _ meta => meta = gpi_meta
  | _ => True
  end.

(** [calls] are the calls made for the grid point [p]: the read of [p],
    then matching, result-name and scaling calls, and metrics calls whose
    [gpi_meta] is the (gpi, lon, lat) of [p] when the jobs are cell based
    and the job otherwise. *)
Definition segment_of (self : Validation) (job : pyval) (p : num * num * num)
    (calls : list event) : Prop :=
  ∃ rest, calls = EvGetData p.1.1 p.1.2 p.2 :: rest ∧
    Forall (in_segment (if cell_based_jobs self
                        then PTuple [p.1.1; p.1.2; p.2] else job)) rest.

Lemma process_point_segment self job a p :
  segment_of self job p (process_point job a p self).1.2.
Proof.
  unfold segment_of, process_point, mbind at 1, M_bind, attr.
  unfold mbind at 1. unfold M_bind, attr.
  unfold mbind at 1. unfold M_bind, call. simpl.
  destruct (get_data _ _ _ _) as [e|df_dict]; [by eexists |].
  destruct (decide (length df_dict = 0)); [by eexists |].
  assert (obeys (in_segment (if cell_based_jobs self then gpi_tuple p else job))
            self
            (match_all df_dict ≫= λ matched_n,
               process_metrics matched_n
                 (if cell_based_jobs self then gpi_tuple p else job) a))
    as [_ Hseg].
  { apply obeys_bind.
    - by apply match_all_obeys.
    - intros matched_n _. by apply process_metrics_obeys. }
  destruct ((match_all df_dict ≫= _) self) as [[s2 t2] r2]. simpl in *.
  by eexists.
Qed.

Lemma collect_loop_segments self job (l : list (num * num * num)) a :
  ∃ segments,
    (foldM (process_point job) a l self).1.2 = concat segments ∧
    (is_return (foldM (process_point job) a l self).2 →
       length segments = length l) ∧
    Forall2 (λ p calls, ∃ a', calls = (process_point job a' p self).1.2)
            (take (length segments) l) segments.
Proof.
  revert a. induction l as [|p l IH]; intros a; simpl.
  - by exists [].
  - unfold mbind, M_bind.
    destruct (process_point_obeys self job a p) as [Hs _].
    destruct (process_point job a p self) as [[s1 t1] [e|a1]] eqn:Hp;
      simpl in Hs; subst s1.
    + exists [t1]. simpl. rewrite app_nil_r. split_and!; [done | done |].
      rewrite take_0. constructor; [| constructor]. exists a. by rewrite Hp.
    + destruct (IH a1) as (segments & Hcalls & Hlen & Hall).
      destruct (foldM (process_point job) a1 l self) as [[s2 t2] r2].
      simpl in *. exists (t1 :: segments). simpl. split_and!.
      * by rewrite Hcalls.
      * intros Hret. by rewrite Hlen.
      * constructor; [| done]. exists a. by rewrite Hp.
Qed.

Lemma calc_segments job self calls0 gpis lons lats :
  process_axes job self = (self, calls0, Return (gpis, lons, lats)) →
  ∃ segments,
    (calc job self).1.2 = calls0 ++ concat segments ∧
    (is_return (calc job self).2 →
       length segments = length (zip3 gpis lons lats)) ∧
    Forall2 (λ p calls, ∃ a, calls = (process_point job a p self).1.2)
            (take (length segments) (zip3 gpis lons lats)) segments.
Proof.
  intros Haxes.
  destruct (collect_loop_segments self job (zip3 gpis lons lats) [])
    as (segments & Hcalls & Hlen & Hall).
  exists segments.
  assert (collect job self =
          ((foldM (process_point job) [] (zip3 gpis lons lats) self).1.1,
           calls0 ++ (foldM (process_point job) [] (zip3 gpis lons lats) self).1.2,
           (foldM (process_point job) [] (zip3 gpis lons lats) self).2))
    as Hcollect.
  { unfold collect. by rewrite (bind_return _ _ _ _ _ Haxes). }
  unfold calc, mbind, M_bind. rewrite Hcollect.
  destruct (foldM (process_point job) [] (zip3 gpis lons lats) self)
    as [[s2 t2] [e|results]]; simpl in *.
  - by rewrite Hcalls.
  - unfold lift. simpl. rewrite app_nil_r, Hcalls. split_and!; try done.
    intros _. by apply Hlen.
Qed.

(** C8: the calls of [calc] after those for the job's grid points are
    made grid point by grid point, in their order; the calls for a grid
    point start with its read, and in every metrics call among them the
    second argument is the (gpi, lon, lat) of that grid point when the jobs
    are cell based, and the job itself when they are not. *)
Theorem metrics_calls_get_meta_of_point job self calls0 gpis lons lats :
  process_axes job self = (self, calls0, Return (gpis, lons, lats)) →
  ∃ segments,
    (calc job self).1.2 = calls0 ++ concat segments ∧
    Forall no_metrics calls0 ∧
    (is_return (calc job self).2 →
       length segments = length (zip3 gpis lons lats)) ∧
    Forall2 (segment_of self job)
            (take (length segments) (zip3 gpis lons lats)) segments.
Proof.
  intros Haxes.
  destruct (calc_segments _ _ _ _ _ _ Haxes) as (segments & Hcalls & Hlen & Hall).
  exists segments. split_and!; try done.
  - assert (obeys no_metrics self (process_axes job)) as [_ Hno].
    { unfold process_axes. repeat obeys_step; done. }
    by rewrite Haxes in Hno.
  - eapply Forall2_impl; [exact Hall |].
    intros p calls [a ->]. apply process_point_segment.
Qed.

(** ** How often a grid point contributes to a result name *)

(** How often the result name [key] is requested at a grid point: its
    occurrences among the result names of each key of the metrics
    calculators. *)
Definition requests (self : Validation) (key : ResultName) : nat :=
  sum_list
    ((λ nk : nat * nat,
        match get_result_names (ds_dict (data_manager self))
                               (temporal_ref self) nk.2 with
        | Return names =>
            sum_list ((λ r, if decide (r = key) then 1 else 0) <$> names)
        | Raise _ => 0
        end) <$> OD.keys (metrics_c self)).

Lemma foldM_returns_bound {A B} self key (body : A → B → M A) (c : B → nat)
    (l : list B) :
  (∀ a x, x ∈ l → (body a x self).1.1 = self ∧
     length (metrics_returns self key (body a x self).1.2) ≤ c x) →
  ∀ a, length (metrics_returns self key (foldM body a l self).1.2)
       ≤ sum_list (c <$> l).
Proof.
  induction l as [|x l IH]; intros Hbody a; csimpl; [done |].
  unfold mbind, M_bind.
  destruct (Hbody a x) as [Hs Hx]; [left |].
  destruct (body a x self) as [[s1 t1] [e|a1]]; csimpl in *; [lia |].
  subst s1.
  assert (length (metrics_returns self key (foldM body a1 l self).1.2)
          ≤ sum_list (c <$> l)) as Hl.
  { apply IH. intros a' y Hy. apply Hbody. by right. }
  destruct (foldM body a1 l self) as [[s2 t2] r2]. csimpl in *.
  rewrite metrics_returns_app, length_app. lia.
Qed.

Lemma process_result_returns_bound self key n k md gpi_meta results result :
  length (metrics_returns self key
            (process_result n k md gpi_meta results result self).1.2)
  ≤ (if decide (result = key) then 1 else 0).
Proof.
  unfold process_result. unfold mbind at 1. unfold M_bind, lift.
  destruct (prepare_data n k md result) as [e|data]; simpl; [lia |].
  destruct (decide (df_len data = 0)); [simpl; lia |].
  unfold mbind at 1. unfold M_bind.
  destruct (scaling_stage_obeys no_metrics self result data) as [Hs Hno]; [done |].
  destruct (scaling_stage result data self) as [[s1 t1] [e|[scaled|]]];
    simpl in Hs, Hno; subst s1; simpl;
    try (rewrite (metrics_returns_no_metrics _ _ _ Hno); simpl; lia).
  - unfold mbind, M_bind, attr, lift, call, mret, M_ret, OD.getitem. simpl.
    destruct (OD.get (n, k) (metrics_c self)) as [calculator|] eqn:Hcalc; simpl.
    2: { rewrite app_nil_r, (metrics_returns_no_metrics _ _ _ Hno). simpl. lia. }
    destruct (OD.get result _) as [collected|]; simpl.
    2: { rewrite app_nil_r, (metrics_returns_no_metrics _ _ _ Hno). simpl. lia. }
    assert (length (metrics_returns self key
                      [EvMetrics result (n, k) scaled gpi_meta])
            ≤ (if decide (result = key) then 1 else 0)) as Hone.
    { unfold metrics_returns. simpl. destruct (decide (result = key)); [| done].
      rewrite Hcalc. destruct (calculator scaled gpi_meta); simpl; lia. }
    destruct (calculator scaled gpi_meta) as [e|point_result]; simpl;
      rewrite metrics_returns_app, (metrics_returns_no_metrics _ _ _ Hno);
      simpl; by rewrite ?app_nil_r.
  - rewrite app_nil_r, (metrics_returns_no_metrics _ _ _ Hno). simpl. lia.
Qed.

Lemma process_point_returns_bound self job key a p :
  length (metrics_returns self key (process_point job a p self).1.2)
  ≤ requests self key.
Proof.
  unfold process_point, mbind at 1, M_bind, attr.
  unfold mbind at 1. unfold M_bind, attr.
  unfold mbind at 1. unfold M_bind, call. simpl.
  destruct (get_data _ _ _ _) as [e|df_dict]; [simpl; lia |].
  destruct (decide (length df_dict = 0)); [simpl; lia |].
  unfold mbind at 1. unfold M_bind.
  destruct (match_all_obeys no_metrics self df_dict) as [Hs Hno]; [done |].
  destruct (match_all df_dict self) as [[s1 t1] [e|matched_n]];
    simpl in Hs, Hno; subst s1.
  { simpl. rewrite (metrics_returns_no_metrics _ _ _ Hno). simpl. lia. }
  set (gpi_meta := if cell_based_jobs self then _ else _).
  assert (length (metrics_returns self key
                    (process_metrics matched_n gpi_meta a self).1.2)
          ≤ requests self key) as Hbound.
  { unfold process_metrics. unfold mbind at 1. unfold M_bind, attr.
    assert (length (metrics_returns self key
              (foldM (λ results (nk : nat * nat),
                        n_matched_data ← lift (OD.getitem nk matched_n);
                        dm ← attr data_manager;
                        ref ← attr temporal_ref;
                        names ← call (EvResultNames ref nk.2)
                                     (get_result_names (ds_dict dm) ref nk.2);
                        foldM (process_result nk.1 nk.2 n_matched_data gpi_meta)
                              results names)
                     a (OD.keys (metrics_c self)) self).1.2)
            ≤ requests self key) as Hloop.
    { apply foldM_returns_bound. intros a' nk _. split.
      - eapply proj1.
        apply (obeys_bind (λ _, True)); [apply obeys_lift |]. intros ? _.
        apply obeys_bind; [apply obeys_attr |]. intros ? _.
        apply obeys_bind; [apply obeys_attr |]. intros ? _.
        apply obeys_bind; [by apply obeys_call |]. intros ? _.
        apply obeys_foldM. intros ? ? _. by apply process_result_obeys.
      - unfold mbind at 1. unfold M_bind, lift.
        destruct (OD.getitem nk matched_n) as [e|md]; simpl; [lia |].
        unfold mbind, M_bind, attr, call. simpl.
        destruct (get_result_names _ _ _) as [e|names]; simpl; [lia |].
        assert (length (metrics_returns self key
                  (foldM (process_result nk.1 nk.2 md gpi_meta) a' names self).1.2)
                ≤ sum_list ((λ r, if decide (r = key) then 1 else 0) <$> names))
          as Hnames.
        { apply foldM_returns_bound. intros a'' r _. split.
          - by eapply proj1, (process_result_obeys (λ _, True)).
          - apply process_result_returns_bound. }
        destruct (foldM (process_result nk.1 nk.2 md gpi_meta) a' names self)
          as [[s3 t3] r3]. simpl in *. exact Hnames. }
    destruct (foldM _ a (OD.keys (metrics_c self)) self) as [[s2 t2] r2].
    simpl in *. by rewrite ?app_nil_r. }
  destruct (process_metrics matched_n gpi_meta a self) as [[s2 t2] r2].
  simpl in *.
  change (EvGetData p.1.1 p.1.2 p.2 :: t1 ++ t2)
    with ([EvGetData p.1.1 p.1.2 p.2] ++ t1 ++ t2).
  rewrite !metrics_returns_app, (metrics_returns_no_metrics _ _ _ Hno).
  simpl. lia.
Qed.

(** C6: for a result name with at least one point result, the compact
    result has, for each field name of the first point result, an array
    of the dtype of the first value. Its elements are, grid point by grid
    point in the order of processing, the first elements of the values
    that the point results returned at that grid point have for that
    field, converted to that dtype; a grid point contributes as many
    elements as metrics calculators returned for the result name there, at
    most as many as the result name is requested, so that with a result
    name requested once the elements are the per-point values of the grid
    points that gave a result. *)
Theorem compact_arrays_point_by_point job self s calls compact key first
    calls0 gpis lons lats :
  calc job self = (s, calls, Return compact) →
  process_axes job self = (self, calls0, Return (gpis, lons, lats)) →
  metrics_returns self key calls !! 0 = Some first →
  ∃ per_point : list (list PointResult),
    Forall2 (λ p returned,
               (∃ a, returned =
                  metrics_returns self key (process_point job a p self).1.2) ∧
               length returned ≤ requests self key)
            (zip3 gpis lons lats) per_point ∧
    ∃ fields, OD.get key compact = Some fields ∧
      ∀ field value, OD.get field first = Some value →
        ∃ array, OD.get field fields = Some array ∧
          arr_dtype array = arr_dtype value ∧
          Forall2 (field_of field (arr_dtype value))
                  (concat per_point) (arr_elems array).
Proof.
  intros Hcalc Haxes Hfirst.
  destruct (calc_segments _ _ _ _ _ _ Haxes) as (segments & Hcalls & Hlen & Hall).
  rewrite Hcalc in Hcalls, Hlen. simpl in Hcalls, Hlen.
  rewrite (Hlen I), firstn_all in Hall.
  exists (metrics_returns self key <$> segments). split.
  - apply Forall2_fmap_r. eapply Forall2_impl; [exact Hall |].
    intros p t [a ->]. split; [by exists a |].
    apply process_point_returns_bound.
  - assert (metrics_returns self key calls =
            concat (metrics_returns self key <$> segments)) as Hreturns.
    { rewrite Hcalls, metrics_returns_app.
      assert (obeys no_metrics self (process_axes job)) as [_ Hno].
      { unfold process_axes. repeat obeys_step; done. }
      rewrite Haxes in Hno. simpl in Hno.
      rewrite (metrics_returns_no_metrics _ _ _ Hno). simpl.
      clear. induction segments as [|t segments IH]; [done |].
      simpl. by rewrite metrics_returns_app, IH. }
    rewrite <-Hreturns.
    by apply (compact_result_arrays job self s calls compact key first).
Qed.

(** ** [Validation.get_processing_jobs] (lines 262-277) *)

(** The two methods of the reference grid that enumerate jobs. What
    [get_grid_points()] returns is iterated over by [zip]; its items are
    taken to be of the kind that a job tuple holds. *)
Record GridJobs := {
  get_cells : outcome (list pyval);
  get_grid_points : outcome (list num);
}.

(** [zip(iterable)] with a single iterable: a 1-tuple for each item. *)
Definition zip1 (items : list num) : list pyval :=
  (λ x, PTuple [x]) <$> items.

Definition get_processing_jobs (grid_jobs : GridJobs) (self : Validation)
    : outcome (list pyval) :=
  match reference_grid (data_manager self) with
  | Some _ =>
      if cell_based_jobs self then get_cells grid_jobs
      else items ← get_grid_points grid_jobs; Return (zip1 items)
  | None => Return []
  end.

(** X17: with point-based jobs, every job that [get_processing_jobs]
    returns is a tuple of one element, and [calc] raises [IndexError] on it
    before anything is read. *)
Theorem point_jobs_not_processed grid_jobs self jobs job :
  cell_based_jobs self = false →
  get_processing_jobs grid_jobs self = Return jobs →
  job ∈ jobs →
  (∃ x, job = PTuple [x]) ∧ calc job self = (self, [], Raise IndexError).
Proof.
  intros Hcb. unfold get_processing_jobs. rewrite Hcb.
  destruct (reference_grid (data_manager self)) as [grid|].
  - destruct (get_grid_points grid_jobs) as [e|items]; simpl; [done |].
    intros [= <-] (x & -> & _)%list_elem_of_fmap. split; [by exists x |].
    unfold calc, collect, process_axes, mbind, M_bind, attr, lift.
    simpl. by rewrite Hcb.
  - intros [= <-] Hjob. by apply elem_of_nil in Hjob.
Qed.

(** * [calc] over a store of DataFrame objects

    A DataFrame is a mutable object, and [calc] works on it in place
    (lines 225-227). Here the DataFrames are objects of a store and are
    handled by reference: the temporal matcher returns references to the
    DataFrames it matched, [data = n_matched_data[...]] is such a
    reference, [data[[x for x in result]]] makes a new object, and the two
    statements after it change the object that [data] refers to. The store
    lives on from one call of [calc] to the next. *)

(** A DataFrame object: its columns are a MultiIndex of (dataset, column)
    pairs or, after [droplevel], a flat Index. *)
Inductive frame_obj :=
  | MultiCols (d : DataFrame (string * string))
  | FlatCols (d : DataFrame string).

(** The store: the DataFrame objects; a reference is a position in it. *)
Abbreviation store := (list frame_obj).

(** A computation on the store and the [Validation] object. *)
Definition SM (A : Type) : Type :=
  store → Validation → store * Validation * list event * outcome A.

#[global] Instance SM_ret : MRet SM := λ A a h self, (h, self, [], Return a).
#[global] Instance SM_bind : MBind SM := λ A B k m h self,
  match m h self with
  | (h1, self1, t1, Raise e) => (h1, self1, t1, Raise e)
  | (h1, self1, t1, Return a) =>
      let '(h2, self2, t2, r) := k a h1 self1 in (h2, self2, t1 ++ t2, r)
  end.

(** A computation that does not touch the store. *)
Definition run {A} (m : M A) : SM A := λ h self,
  let '(self1, t, r) := m self in (h, self1, t, r).

(** A new object. *)
Definition new_frame (obj : frame_obj) : SM nat := λ h self,
  (h ++ [obj], self, [], Return (length h)).

(** The object behind a reference. *)
Definition get_frame (ref : nat) : SM frame_obj := λ h self,
  (h, self, [], or_raise (OtherError "no such object") (h !! ref)).

(** A change of the object behind a reference, in place. *)
Definition set_frame (ref : nat) (obj : frame_obj) : SM unit := λ h self,
  (<[ref := obj]> h, self, [], Return tt).

Fixpoint foldSM {A B} (body : A → B → SM A) (a : A) (l : list B) : SM A :=
  match l with
  | [] => mret a
  | x :: l' => a' ← body a x; foldSM body a' l'
  end.

(** Lines 229-248: what [process_result] does with the prepared table. *)
Definition finish_result (n k : nat) (gpi_meta : pyval) (results : Results)
    (result : ResultName) (data : DataFrame string) : M Results :=
  if decide (df_len data = 0) then mret results
  else
    scaled ← scaling_stage result data;
    match scaled with
    | None => mret results
    | Some data =>
        let results :=
          if OD.mem result results then results else OD.set result [] results in
        mc ← attr metrics_c;
        metrics_calculator ← lift (OD.getitem (n, k) mc);
        collected ← lift (OD.getitem result results);
        point_result ← call (EvMetrics result (n, k) data gpi_meta)
                            (metrics_calculator data gpi_meta);
        mret (OD.set result (collected ++ [point_result]) results)
    end.

Section store_model.

(** [self.temp_matching] as it is in the store: it returns, for each key,
    a reference to the matched DataFrame. *)
Variable temp_matching_refs :
  odict string table → string → nat → outcome (odict DatasetKey nat).

(** Lines 178-182. *)
Definition smatch_step (df_dict : odict string table)
    (matched_n : odict (nat * nat) (odict DatasetKey nat)) (nk : nat * nat)
    : SM (odict (nat * nat) (odict DatasetKey nat)) :=
  ref ← run (attr temporal_ref);
  matched_data ← run (call (EvMatching df_dict ref nk.1)
                           (temp_matching_refs df_dict ref nk.1));
  mret (OD.set nk matched_data matched_n).

(** Lines 176-182. *)
Definition smatch_all (df_dict : odict string table)
    : SM (odict (nat * nat) (odict DatasetKey nat)) :=
  mc ← run (attr metrics_c);
  foldSM (smatch_step df_dict) [] (OD.keys mc).

(** Lines 199-218: [data = n_matched_data[...]], a reference to an object
    of the matcher. *)
Definition select_ref (n k : nat) (dskey : DatasetKey)
    (n_matched_data : odict DatasetKey nat) : outcome nat :=
  if decide (n = k) then OD.getitem dskey n_matched_data
  else
    fm ← first_match dskey (OD.keys n_matched_data);
    match find_key dskey fm with
    | None => Raise KeyError
    | Some found_key => OD.getitem found_key n_matched_data
    end.

(** Lines 191-227 on the store; the table is read off the object once
    the statements that change it are done. *)
Definition sprepare (n k : nat) (n_matched_data : odict DatasetKey nat)
    (result : ResultName) : SM (DataFrame string) :=
  data ← run (lift (select_ref n k (dskey_of result) n_matched_data));
  (* data = data[[x for x in result]] *)
  obj ← get_frame data;
  data ← match obj with
         | MultiCols d =>
             projected ← run (lift (select_columns d result));
             new_frame (MultiCols projected)
         | FlatCols _ => run (lift (Raise KeyError))
         end;
  (* data.columns = data.columns.droplevel(level=1) *)
  obj ← get_frame data;
  _ ← match obj with
      | MultiCols d => set_frame data (FlatCols (droplevel_1 d))
      | FlatCols _ => run (lift (Raise ValueError))
      end;
  (* data.rename(columns=rename_dict, inplace=True) *)
  obj ← get_frame data;
  _ ← match obj with
      | FlatCols d =>
          set_frame data (FlatCols (rename_columns (rename_dict_of result) d))
      | MultiCols _ => run (lift (Raise TypeError))
      end;
  obj ← get_frame data;
  match obj with
  | FlatCols d => mret d
  | MultiCols _ => run (lift (Raise TypeError))
  end.

(** Lines 189-248. *)
Definition sprocess_result (n k : nat) (n_matched_data : odict DatasetKey nat)
    (gpi_meta : pyval) (results : Results) (result : ResultName) : SM Results :=
  data ← sprepare n k n_matched_data result;
  run (finish_result n k gpi_meta results result data).

(** Lines 184-248. *)
Definition sprocess_metrics
    (matched_n : odict (nat * nat) (odict DatasetKey nat))
    (gpi_meta : pyval) (results : Results) : SM Results :=
  mc ← run (attr metrics_c);
  foldSM (λ results (nk : nat * nat),
            n_matched_data ← run (lift (OD.getitem nk matched_n));
            dm ← run (attr data_manager);
            ref ← run (attr temporal_ref);
            names ← run (call (EvResultNames ref nk.2)
                              (get_result_names (ds_dict dm) ref nk.2));
            foldSM (sprocess_result nk.1 nk.2 n_matched_data gpi_meta)
                   results names)
         results (OD.keys mc).

(** Lines 159-248. *)
Definition sprocess_point (job : pyval) (results : Results)
    (gpi_info : num * num * num) : SM Results :=
  cell_based ← run (attr cell_based_jobs);
  let gpi_meta := if cell_based : bool then gpi_tuple gpi_info else job in
  dm ← run (attr data_manager);
  df_dict ← run (call (EvGetData gpi_info.1.1 gpi_info.1.2 gpi_info.2)
                      (get_data dm gpi_info.1.1 gpi_info.1.2 gpi_info.2));
  if decide (length df_dict = 0) then mret results
  else
    matched_n ← smatch_all df_dict;
    sprocess_metrics matched_n gpi_meta results.

(** Lines 149-248. *)
Definition scollect (job : pyval) : SM Results :=
  axes ← run (process_axes job);
  foldSM (sprocess_point job) [] (zip3 axes.1.1 axes.1.2 axes.2).

(** [Validation.calc] on the store. *)
Definition scalc (job : pyval) : SM CompactResults :=
  results ← scollect job;
  run (lift (aggregate results)).

(** ** The store model and the model by value *)

(** Outcomes that raise the same exception or return related values. *)
Definition outcome_rel {A B} (R : A → B → Prop)
    (r1 : outcome A) (r2 : outcome B) : Prop :=
  match r1, r2 with
  | Raise e1, Raise e2 => e1 = e2
  | Return a, Return b => R a b
  | _, _ => False
  end.

(** [refs] holds, key by key, references to the DataFrames of [md] in the
    store [h0]. *)
Definition refs_of (h0 : store) (refs : odict DatasetKey nat)
    (md : MatchedData) : Prop :=
  Forall2 (λ kr kd, kr.1 = kd.1 ∧ h0 !! kr.2 = Some (MultiCols kd.2)) refs md.

(** [temp_matching self] tells by value what the matcher returns by
    reference into the store [h0]. *)
Definition matcher_of (h0 : store) (self : Validation) : Prop :=
  ∀ df_dict ref n,
    outcome_rel (refs_of h0) (temp_matching_refs df_dict ref n)
                (temp_matching self df_dict ref n).

Lemma lookup_snoc {A} (l : list A) (x : A) : (l ++ [x]) !! length l = Some x.
Proof. induction l; simpl; auto. Qed.

Lemma insert_snoc {A} (l : list A) (x y : A) :
  <[length l := y]> (l ++ [x]) = l ++ [y].
Proof. induction l; simpl; [done | by f_equal]. Qed.

Lemma bind_attr {A B} (field : Validation → A) (k : A → M B) self :
  (attr field ≫= k) self = k (field self) self.
Proof.
  unfold mbind, M_bind, attr. by destruct (k (field self) self) as [[s t] r].
Qed.

Lemma finish_result_obeys self n k gpi_meta results result data :
  obeys (λ _, True) self (finish_result n k gpi_meta results result data).
Proof.
  unfold finish_result. obeys_step; [obeys_step |].
  obeys_step; [by apply scaling_stage_obeys |].
  repeat obeys_step. done.
Qed.

Lemma process_result_finish n k md gpi_meta results result :
  process_result n k md gpi_meta results result =
  lift (prepare_data n k md result) ≫= finish_result n k gpi_meta results result.
Proof. reflexivity. Qed.

Section simulation.
Variables (h0 : store) (self : Validation).

(** [sm] does on a store that begins with [h0] what [m] does by value:
    the same calls and related outcomes, [self] and the objects of [h0]
    as they were. *)
Definition sim {A B} (R : A → B → Prop) (sm : SM A) (m : M B) : Prop :=
  (m self).1.1 = self ∧
  ∀ fresh, ∃ fresh' r,
    sm (h0 ++ fresh) self = (h0 ++ fresh', self, (m self).1.2, r) ∧
    outcome_rel R r (m self).2.

Lemma outcome_rel_eq {A} (r : outcome A) : outcome_rel eq r r.
Proof. by destruct r. Qed.

Lemma sim_ret {A B} (R : A → B → Prop) a b : R a b → sim R (mret a) (mret b).
Proof. intros HR. split; [done |]. intros fresh. by exists fresh, (Return a). Qed.

Lemma sim_run {A} (m : M A) : (m self).1.1 = self → sim eq (run m) m.
Proof.
  intros Hs. split; [done |]. intros fresh. unfold run.
  destruct (m self) as [[s t] r]; simpl in *. subst s.
  exists fresh, r. split; [done | apply outcome_rel_eq].
Qed.

Lemma sim_call {A B} (R : A → B → Prop) ev r1 r2 :
  outcome_rel R r1 r2 → sim R (run (call ev r1)) (call ev r2).
Proof. intros HR. split; [done |]. intros fresh. by exists fresh, r1. Qed.

Lemma sim_bind {A B A' B'} (R : A → B → Prop) (R' : A' → B' → Prop)
    (sm : SM A) (m : M B) (sk : A → SM A') (k : B → M B') :
  sim R sm m → (∀ a b, R a b → sim R' (sk a) (k b)) →
  sim R' (sm ≫= sk) (m ≫= k).
Proof.
  unfold sim at 1. intros [Hs Hm] Hk. unfold sim, mbind, SM_bind, M_bind.
  revert Hs Hm. destruct (m self) as [[s1 t1] [e|b]]; simpl; intros -> Hm.
  - split; [done |]. intros fresh.
    destruct (Hm fresh) as (fresh' & [e'|a] & -> & Hrel); simpl in Hrel; [| done].
    subst e'. by exists fresh', (Raise e).
  - split.
    + destruct (Hm []) as (fresh' & [e'|a] & _ & Hrel); simpl in Hrel; [done |].
      destruct (Hk a b Hrel) as [Hks _].
      by destruct (k b self) as [[s2 t2] r2].
    + intros fresh.
      destruct (Hm fresh) as (fresh' & [e'|a] & -> & Hrel); simpl in Hrel; [done |].
      destruct (Hk a b Hrel) as [Hks Hkm].
      destruct (Hkm fresh') as (fresh'' & r' & -> & Hrel').
      exists fresh'', r'. revert Hks Hrel'.
      by destruct (k b self) as [[s2 t2] r2]; simpl; intros ->.
Qed.

Lemma sim_foldSM {A B C} (R : A → B → Prop)
    (sbody : A → C → SM A) (body : B → C → M B) (l : list C) :
  (∀ a b x, R a b → sim R (sbody a x) (body b x)) →
  ∀ a b, R a b → sim R (foldSM sbody a l) (foldM body b l).
Proof.
  intros Hbody. induction l as [|x l IH]; intros a b HR; simpl.
  - by apply sim_ret.
  - eapply sim_bind; [by apply Hbody | apply IH].
Qed.

Lemma sim_ext {A B} (R : A → B → Prop) (sm : SM A) (m m' : M B) :
  m' self = m self → sim R sm m → sim R sm m'.
Proof. unfold sim. by intros ->. Qed.

Lemma sim_attr {A} (field : Validation → A) : sim eq (run (attr field)) (attr field).
Proof. by apply sim_run. Qed.

Lemma sim_lift {A} (r : outcome A) : sim eq (run (lift r)) (lift r).
Proof. by apply sim_run. Qed.

(** *** Dictionaries of references *)

Lemma refs_of_keys refs md : refs_of h0 refs md → OD.keys refs = OD.keys md.
Proof.
  unfold OD.keys. induction 1 as [|[k r] [k' d] refs md [Hk _] _ IH]; csimpl;
    [done |]. simpl in Hk. by f_equal.
Qed.

Lemma refs_of_getitem key refs md :
  refs_of h0 refs md →
  outcome_rel (λ r d, h0 !! r = Some (MultiCols d))
              (OD.getitem key refs) (OD.getitem key md).
Proof.
  unfold OD.getitem.
  induction 1 as [|[k r] [k' d] refs md [Hk Hr] _ IH]; simpl; [done |].
  simpl in Hk, Hr. subst k'. by destruct (decide (key = k)).
Qed.

Lemma select_ref_data n k dskey refs md :
  refs_of h0 refs md →
  outcome_rel (λ r d, h0 !! r = Some (MultiCols d))
              (select_ref n k dskey refs) (select_data n k dskey md).
Proof.
  intros Hrefs. unfold select_ref, select_data.
  destruct (decide (n = k)); [by apply refs_of_getitem |].
  rewrite (refs_of_keys refs md Hrefs).
  destruct (first_match dskey (OD.keys md)) as [e|fm]; simpl; [done |].
  destruct (find_key dskey fm); [by apply refs_of_getitem | done].
Qed.

(** Lines 191-227: [calc] changes in place an object it has made itself,
    never one of the matcher. *)
Lemma sprepare_prepare_data n k refs md result :
  refs_of h0 refs md →
  sim eq (sprepare n k refs result) (lift (prepare_data n k md result)).
Proof.
  intros Hrefs. split; [done |]. intros fresh.
  pose proof (select_ref_data n k (dskey_of result) refs md Hrefs) as Hsel.
  unfold sprepare, prepare_data, lift, run, mbind at 1 2 3 4 5 6 7, SM_bind.
  simpl.
  destruct (select_ref n k (dskey_of result) refs) as [e|r],
    (select_data n k (dskey_of result) md) as [e'|d]; simpl in *; try done.
  { subst e'. by exists fresh, (Raise e). }
  unfold get_frame at 1. rewrite (lookup_app_l_Some _ _ _ _ Hsel). simpl.
  destruct (select_columns d result) as [e|projected]; simpl.
  { by exists fresh, (Raise e). }
  unfold new_frame, get_frame, set_frame, mbind, SM_bind. simpl.
  rewrite lookup_snoc. simpl. rewrite insert_snoc, lookup_snoc. simpl.
  rewrite insert_snoc, lookup_snoc. simpl.
  rewrite <- (assoc_L (++)).
  by eexists _, (Return _).
Qed.

Definition refs_n_of (rn : odict (nat * nat) (odict DatasetKey nat))
    (mn : odict (nat * nat) MatchedData) : Prop :=
  Forall2 (λ a b, a.1 = b.1 ∧ refs_of h0 a.2 b.2) rn mn.

Lemma refs_n_of_set nk refs md rn mn :
  refs_of h0 refs md → refs_n_of rn mn →
  refs_n_of (OD.set nk refs rn) (OD.set nk md mn).
Proof.
  intros Hrefs.
  induction 1 as [|[k r] [k' d] rn mn [Hk Hr] Hrest IH]; simpl.
  - by repeat constructor.
  - simpl in Hk, Hr. subst k'. destruct (decide (nk = k)).
    + by constructor.
    + by constructor.
Qed.

Lemma refs_n_of_getitem nk rn mn :
  refs_n_of rn mn →
  outcome_rel (refs_of h0) (OD.getitem nk rn) (OD.getitem nk mn).
Proof.
  unfold OD.getitem.
  induction 1 as [|[k r] [k' d] rn mn [Hk Hr] _ IH]; simpl; [done |].
  simpl in Hk, Hr. subst k'. by destruct (decide (nk = k)).
Qed.

Lemma smatch_all_match_all df_dict :
  matcher_of h0 self →
  sim refs_n_of (smatch_all df_dict) (match_all df_dict).
Proof.
  intros Hmatcher. unfold smatch_all, match_all.
  eapply sim_bind; [apply sim_attr |]. intros mc _ <-.
  apply sim_foldSM; [| constructor].
  intros rn mn nk Hn. unfold smatch_step, match_step.
  eapply sim_ext; [apply bind_attr |].
  eapply sim_bind; [apply sim_attr |]. intros ref _ <-.
  eapply sim_bind; [apply sim_call, Hmatcher |]. intros refs md Hrefs.
  apply sim_ret. by apply refs_n_of_set.
Qed.

Lemma sprocess_result_process_result n k refs md gpi_meta results result :
  refs_of h0 refs md →
  sim eq (sprocess_result n k refs gpi_meta results result)
         (process_result n k md gpi_meta results result).
Proof.
  intros Hrefs. rewrite process_result_finish. unfold sprocess_result.
  eapply sim_bind; [by apply sprepare_prepare_data |]. intros data _ <-.
  apply sim_run, finish_result_obeys.
Qed.

Lemma sprocess_metrics_process_metrics rn mn gpi_meta results :
  refs_n_of rn mn →
  sim eq (sprocess_metrics rn gpi_meta results)
         (process_metrics mn gpi_meta results).
Proof.
  intros Hn. unfold sprocess_metrics, process_metrics.
  eapply sim_bind; [apply sim_attr |]. intros mc _ <-.
  apply sim_foldSM; [| done]. intros res _ nk <-.
  eapply sim_bind.
  { split; [done |]. intros fresh.
    exists fresh, (OD.getitem nk rn). split; [done |].
    apply (refs_n_of_getitem nk rn mn Hn). }
  intros refs md Hrefs.
  eapply sim_bind; [apply sim_attr |]. intros dm _ <-.
  eapply sim_bind; [apply sim_attr |]. intros ref _ <-.
  eapply sim_bind; [by apply sim_run |]. intros names _ <-.
  apply sim_foldSM; [| done]. intros res' _ result <-.
  by apply sprocess_result_process_result.
Qed.

Lemma sprocess_point_process_point job results gpi_info :
  matcher_of h0 self →
  sim eq (sprocess_point job results gpi_info) (process_point job results gpi_info).
Proof.
  intros Hmatcher. unfold sprocess_point, process_point.
  eapply sim_bind; [apply sim_attr |]. intros cell_based _ <-.
  eapply sim_bind; [apply sim_attr |]. intros dm _ <-.
  eapply sim_bind; [by apply sim_run |]. intros df_dict _ <-.
  destruct (decide (length df_dict = 0)); [by apply sim_ret |].
  eapply sim_bind; [by apply smatch_all_match_all |]. intros rn mn Hn.
  by apply sprocess_metrics_process_metrics.
Qed.

(** [calc] on the store does what [calc] by value does. *)
Lemma scalc_calc job : matcher_of h0 self → sim eq (scalc job) (calc job).
Proof.
  intros Hmatcher. unfold scalc, calc.
  eapply (sim_bind eq); [| intros results _ <-; apply sim_lift].
  unfold scollect, collect.
  eapply sim_bind; [apply sim_run, process_axes_obeys |]. intros axes _ <-.
  apply sim_foldSM; [| done]. intros res _ p <-.
  by apply sprocess_point_process_point.
Qed.

End simulation.


End store_model.

End model.

Arguments df_len {host L} _.
Arguments df_columns {host L} _.

(** * A concrete setting: datasets A (reference), B, C and D *)

Module Scenario.

#[export] Instance host : Host := {|
  num := nat;
  series := list nat;
  table := nat;    (* the number of rows read for a dataset *)
  dsdict := list string;
  scalar := nat;
  dtype := string;
|}.

(** All result names of [k] columns are taken to start with the
    reference; every dataset has the single column [x]. *)
Definition result_names (ds : list string) (ref : string) (k : nat)
    : list ResultName :=
  let others := filter (λ d, d ≠ ref) ds in
  match k with
  | 2 => (λ d, [(ref, "x"); (d, "x")]) <$> others
  | 3 => match others with
         | d1 :: d2 :: _ => [[(ref, "x"); (d1, "x"); (d2, "x")]]
         | _ => []
         end
  | _ => []
  end.

(** Scaling is not feasible on a single row. *)
#[export] Instance imports : Imports := {|
  get_result_names ds ref k := Return (result_names ds ref k);
  scale data method reference_index :=
    if decide (df_len data = 1) then Raise ValueError else Return data;
  np_cast dt x := Return x;
|}.

Definition frame (rows : nat) (key : DatasetKey) : DataFrame (string * string) :=
  {| df_len := rows; df_columns := (λ d, ((d, "x"), [])) <$> key |}.

(** All pairs of [l], in order. *)
Fixpoint pairs (l : list string) : list (string * string) :=
  match l with
  | [] => []
  | d :: l' => ((λ d', (d, d')) <$> l') ++ pairs l'
  end.

(** A matcher in the way of the combinatory matcher: one bucket for each
    combination of [n] datasets that starts with the reference. *)
Definition matcher (df_dict : odict string nat) (ref : string) (n : nat)
    : outcome (odict DatasetKey (DataFrame (string * string))) :=
  let others := filter (λ d, d ≠ ref) (OD.keys df_dict) in
  let rows := default 0 (OD.get ref df_dict) in
  match n with
  | 2 => Return ((λ d, ([ref; d], frame rows [ref; d])) <$> others)
  | 3 => Return ((λ p : string * string,
                    ([ref; p.1; p.2], frame rows [ref; p.1; p.2])) <$> pairs others)
  | _ => Return []
  end.

(** Point 0 has no data, point 2 lacks C and D, point 3 has one row. *)
Definition read (gpi lon lat : nat) : outcome (odict string nat) :=
  match gpi with
  | 0 => Return []
  | 2 => Return [("A", 5); ("B", 5)]
  | 3 => Return [("A", 1); ("B", 1); ("C", 1); ("D", 1)]
  | _ => Return [("A", 5); ("B", 5); ("C", 5); ("D", 5)]
  end.

Definition grid : Grid :=
  {| grid_points_for_cell job :=
       match job with
       | PNum 0 => Return ([0; 0], [10; 11], [20; 21])
       | PNum 1 => Return ([1; 4], [10; 11], [20; 21])
       | PNum _ => Return ([1; 3; 4], [10; 11; 12], [20; 21; 22])
       | PTuple _ => Raise TypeError
       end |}.

Definition manager : DataManager :=
  {| reference_grid := Some grid;
     ds_dict := ["A"; "B"; "C"; "D"];
     get_data := read |}.

(** A metrics calculator that counts the rows. *)
Definition n_obs (data : DataFrame string) (gpi_meta : pyval)
    : outcome (odict string ndarray) :=
  Return [("n_obs", {| arr_dtype := "int64"; arr_elems := [df_len data] |})].

(** A metrics calculator that returns the field [gpi] besides [n_obs]
    at the grid point [rich] only. *)
Definition fields_at (rich : nat) (data : DataFrame string) (gpi_meta : pyval)
    : outcome (odict string ndarray) :=
  let n := {| arr_dtype := "int64"; arr_elems := [df_len data] |} in
  match gpi_meta with
  | PTuple (gpi :: _) =>
      if decide (gpi = rich)
      then Return [("n_obs", n); ("gpi", {| arr_dtype := "int32"; arr_elems := [gpi] |})]
      else Return [("n_obs", n)]
  | _ => Return [("n_obs", n)]
  end.

Definition validation
    (mc : odict (nat * nat) (DataFrame string → pyval → outcome (odict string ndarray)))
    (cell_based : bool) : Validation :=
  {| data_manager := manager;
     temp_matching := matcher;
     temporal_ref := "A";
     metrics_c := mc;
     scaling := Some "lin_cdf_match";
     scaling_ref := "A";
     cell_based_jobs := cell_based |}.

End Scenario.

(** * The properties in the concrete setting *)

Module Cases.
Import Scenario.

(** The registry [{(2, 2): n_obs}], point-based and cell-based. *)
Definition v22 (cell_based : bool) : Validation :=
  validation [((2, 2), n_obs)] cell_based.

(** The registry [{(3, 2): n_obs}]. *)
Definition v32 : Validation := validation [((3, 2), n_obs)] false.

(** The registry [{(2, 2): n_obs, (2, 1): n_obs}]. *)
Definition v22_21 : Validation :=
  validation [((2, 2), n_obs); ((2, 1), n_obs)] false.

Definition all_tables : odict string nat :=
  [("A", 5); ("B", 5); ("C", 5); ("D", 5)].

Definition AB : ResultName := [("A", "x"); ("B", "x")].
Definition AC : ResultName := [("A", "x"); ("C", "x")].

(** The three buckets of the matching of A, B, C and D with [n = 3]. *)
Definition matched3 : odict DatasetKey (DataFrame (string * string)) :=
  [(["A"; "B"; "C"], frame 5 ["A"; "B"; "C"]);
   (["A"; "B"; "D"], frame 5 ["A"; "B"; "D"]);
   (["A"; "C"; "D"], frame 5 ["A"; "C"; "D"])].

Example matcher_3 : matcher all_tables "A" 3 = Return matched3.
Proof. reflexivity. Qed.

(** C1: with the buckets (A, B, C), (A, B, D) and (A, C, D) and the
    result name of A and B requested for [(n, k) = (3, 2)], the bucket taken
    is the last one that starts with A, (A, C, D), although B is not in its
    key; the column of B is then missing and [calc] raises [KeyError]. *)
Theorem last_bucket_taken_without_requested_dataset :
  (select_data 3 2 (dskey_of AB) matched3 = Return (frame 5 ["A"; "C"; "D"])) ∧
  ("B" ∉ ["A"; "C"; "D"]) ∧
  (OD.get ["A"; "B"; "C"] matched3 = Some (frame 5 ["A"; "B"; "C"])) ∧
  (prepare_data 3 2 matched3 AB = Raise KeyError) ∧
  ((calc (PTuple [1; 10; 20]) v32).2 = Raise KeyError).
Proof.
  split_and!; try reflexivity.
  intros Hin. by repeat (apply elem_of_cons in Hin as [?|Hin]; [done |]);
    apply elem_of_nil in Hin.
Qed.

(** C2, as the claim has it, fails: at point 2 only A and B have data,
    the key (A, C) is absent from the matched buckets, and [calc] raises
    [KeyError] where the claim has the result skipped. *)
Lemma absent_key_is_not_skipped :
  key_absent 2 2 (dskey_of AC) [(["A"; "B"], frame 5 ["A"; "B"])] ∧
  matcher [("A", 5); ("B", 5)] "A" 2 = Return [(["A"; "B"], frame 5 ["A"; "B"])] ∧
  (calc (PTuple [2; 10; 20]) (v22 false)).2 = Raise KeyError.
Proof. by split_and!. Qed.

Lemma absent_key_raises_witness :
  is_raise (calc (PTuple [2; 10; 20]) (v22 false)).2.
Proof.
  refine (absent_key_raises (PTuple [2; 10; 20]) (v22 false) []
            [2] [10] [20] 2 10 20 [("A", 5); ("B", 5)] 2 2
            [(["A"; "B"], frame 5 ["A"; "B"])]
            (result_names ["A"; "B"; "C"; "D"] "A" 2) AC _ _ _ _ _ _ _ _ _).
  - reflexivity.
  - left.
  - reflexivity.
  - discriminate.
  - left.
  - reflexivity.
  - reflexivity.
  - right. left.
  - reflexivity.
Defined.

(** C3, as the claim has it, fails: the keys (2, 2) and (2, 1) have one
    value of [n], and at the single point of the job the matcher is called
    twice with it. *)
Lemma same_n_matched_twice :
  (filter is_matching (calc (PTuple [1; 10; 20]) v22_21).1.2 =
     [EvMatching all_tables "A" 2; EvMatching all_tables "A" 2]) ∧
  (remove_dups (OD.keys (metrics_c v22_21)).*1 = [2]) ∧
  is_return (calc (PTuple [1; 10; 20]) v22_21).2.
Proof. by split_and!. Qed.

Lemma matching_once_per_key_witness :
  (filter is_matching
     (process_point (PTuple [1; 10; 20]) [] (1, 10, 20) v22_21).1.2 =
   [EvMatching all_tables "A" 2; EvMatching all_tables "A" 2]) ∧
  (length (filter is_matching
             (process_point (PTuple [1; 10; 20]) [] (1, 10, 20) v22_21).1.2)
   = 2).
Proof.
  refine (matching_once_per_key (PTuple [1; 10; 20]) [] 1 10 20 v22_21
            all_tables _ _ _).
  - reflexivity.
  - discriminate.
  - exact I.
Defined.

(** C4, as the claim has it, fails: in a result name with A at both
    positions, both columns are relabelled [k1] and none [ref]. *)
Lemma repeated_dataset_relabelled_alike :
  prepare_data 2 2
    [(["A"; "A"], {| df_len := 2;
                     df_columns := [(("A", "x"), [1; 2]); (("A", "y"), [3; 4])] |})]
    [("A", "x"); ("A", "y")]
  = Return {| df_len := 2; df_columns := [("k1", [1; 2]); ("k1", [3; 4])] |}.
Proof. reflexivity. Qed.

Lemma relabel_positions_witness :
  let data := {| df_len := 5; df_columns := [("ref", []); ("k1", [])] |} in
  length (df_columns data) = length AB ∧
  (∀ i, i < length AB →
     (df_columns data).*1 !! i =
       Some (if decide (i = 0) then "ref" else "k" +:+ pretty i)) ∧
  NoDup (df_columns data).*1.
Proof.
  refine (relabel_positions 2 2 [(["A"; "B"], frame 5 ["A"; "B"])] AB _ _ _).
  - apply (bool_decide_unpack _). reflexivity.
  - reflexivity.
Defined.

Lemma calc_no_data_witness :
  calc (PNum 0) (v22 true) =
    (v22 true,
     [EvGridPoints (PNum 0)]
       ++ ((λ p : nat * nat * nat, EvGetData p.1.1 p.1.2 p.2)
             <$> zip3 [0; 0] [10; 11] [20; 21]),
     Return []).
Proof.
  refine (calc_no_data (PNum 0) (v22 true) [EvGridPoints (PNum 0)]
            [0; 0] [10; 11] [20; 21] _ _).
  - reflexivity.
  - intros gpi lon lat Hin.
    apply elem_of_cons in Hin as [[= -> -> ->]|Hin]; [reflexivity |].
    apply elem_of_cons in Hin as [[= -> -> ->]|Hin]; [reflexivity |].
    by apply elem_of_nil in Hin.
Defined.

(** The buckets and the prepared data of A and B at point 3, where each
    dataset has a single row. *)
Definition matched_single : odict DatasetKey (DataFrame (string * string)) :=
  [(["A"; "B"], frame 1 ["A"; "B"]);
   (["A"; "C"], frame 1 ["A"; "C"]);
   (["A"; "D"], frame 1 ["A"; "D"])].

Definition single_row : DataFrame string :=
  {| df_len := 1; df_columns := [("ref", []); ("k1", [])] |}.

Definition prepared : DataFrame string :=
  {| df_len := 5; df_columns := [("ref", []); ("k1", [])] |}.


Lemma metrics_calls_get_point_meta_witness :
  (EvMetrics AB (2, 2) prepared (PTuple [4; 11; 21])
     ∈ (calc (PNum 1) (v22 true)).1.2) ∧
  ∃ grid gpis lons lats gpi lon lat,
    reference_grid (data_manager (v22 true)) = Some grid ∧
    grid_points_for_cell grid (PNum 1) = Return (gpis, lons, lats) ∧
    (gpi, lon, lat) ∈ zip3 gpis lons lats ∧
    PTuple [4; 11; 21] = PTuple [gpi; lon; lat].
Proof.
  assert (EvMetrics AB (2, 2) prepared (PTuple [4; 11; 21])
            ∈ (calc (PNum 1) (v22 true)).1.2) as Hcall.
  { apply (list_elem_of_lookup_2 _ 14). reflexivity. }
  split; [exact Hcall |].
  exact (metrics_calls_get_point_meta (PNum 1) (v22 true) AB (2, 2) prepared
           (PTuple [4; 11; 21]) Hcall).
Defined.

Definition counted : odict string ndarray :=
  [("n_obs", {| arr_dtype := "int64"; arr_elems := [5] |})].

Lemma compact_result_arrays_witness :
  ∃ fields,
    OD.get AB [(AB, [("n_obs", {| arr_dtype := "int64"; arr_elems := [5; 5] |})]);
               (AC, [("n_obs", {| arr_dtype := "int64"; arr_elems := [5; 5] |})]);
               ([("A", "x"); ("D", "x")],
                [("n_obs", {| arr_dtype := "int64"; arr_elems := [5; 5] |})])]
      = Some fields ∧
    ∀ field value, OD.get field counted = Some value →
      ∃ array, OD.get field fields = Some array ∧
        arr_dtype array = arr_dtype value ∧
        Forall2 (field_of field (arr_dtype value))
                (metrics_returns (v22 true) AB (calc (PNum 1) (v22 true)).1.2)
                (arr_elems array).
Proof.
  refine (compact_result_arrays (PNum 1) (v22 true) (v22 true)
            (calc (PNum 1) (v22 true)).1.2 _ AB counted _ _).
  - reflexivity.
  - reflexivity.
Defined.

(** The registry [{(2, 2): fields_at rich}], cell-based. *)
Definition v_fields (rich : nat) : Validation :=
  validation [((2, 2), fields_at rich)] true.

(** In cell 1 the points are 1 and 4. With the field [gpi] at point 4
    only, the field is left out of the compact result. *)
Example later_field_left_out :
  (calc (PNum 1) (v_fields 4)).2 =
    Return [(AB, [("n_obs", {| arr_dtype := "int64"; arr_elems := [5; 5] |})]);
            (AC, [("n_obs", {| arr_dtype := "int64"; arr_elems := [5; 5] |})]);
            ([("A", "x"); ("D", "x")],
             [("n_obs", {| arr_dtype := "int64"; arr_elems := [5; 5] |})])].
Proof. reflexivity. Qed.

(** With the field [gpi] at point 1 only, the point result of point 4
    lacks it and [calc] raises. *)
Example missing_later_field_raises :
  (calc (PNum 1) (v_fields 1)).2 = Raise KeyError.
Proof. reflexivity. Qed.

Definition with_gpi (gpi : nat) : odict string ndarray :=
  [("n_obs", {| arr_dtype := "int64"; arr_elems := [5] |});
   ("gpi", {| arr_dtype := "int32"; arr_elems := [gpi] |})].

Lemma first_result_fields_witness :
  (∀ compact, (calc (PNum 1) (v_fields 1)).2 = Return compact →
     ∃ fields, OD.get AB compact = Some fields ∧
       ∀ field, OD.get field (with_gpi 1) = None → OD.get field fields = None) ∧
  (∀ later field, later ∈ [with_gpi 1; counted] →
     OD.get field (with_gpi 1) ≠ None → OD.get field later = None →
     is_raise (calc (PNum 1) (v_fields 1)).2).
Proof.
  refine (first_result_fields (PNum 1) (v_fields 1) (v_fields 1)
            (collect (PNum 1) (v_fields 1)).1.2
            [(AB, [with_gpi 1; counted]);
             (AC, [with_gpi 1; counted]);
             ([("A", "x"); ("D", "x")], [with_gpi 1; counted])]
            AB [with_gpi 1; counted] (with_gpi 1) _ _ _).
  - reflexivity.
  - reflexivity.
  - reflexivity.
Defined.

End Cases.

(** * The further properties in the concrete setting *)

Module MoreCases.
Import Scenario Cases.

(** A bucket of A and B with the columns [x] of A and [x], [y] of B. *)
Definition bucket_AB : DataFrame (string * string) :=
  {| df_len := 2;
     df_columns := [(("A", "x"), [1; 2]); (("B", "x"), [3; 4]); (("B", "y"), [5; 6])] |}.

Definition Ax_By : ResultName := [("A", "x"); ("B", "y")].

Lemma prepared_columns_of_bucket_witness :
  ∃ bucket,
    select_data 2 2 (dskey_of Ax_By) [(["A"; "B"], bucket_AB)] = Return bucket ∧
    df_len {| df_len := 2; df_columns := [("ref", [1; 2]); ("k1", [5; 6])] |}
      = df_len bucket ∧
    Forall2 (λ r (c : string * list nat), OD.get r (df_columns bucket) = Some c.2)
            Ax_By [("ref", [1; 2]); ("k1", [5; 6])].
Proof.
  refine (prepared_columns_of_bucket 2 2 [(["A"; "B"], bucket_AB)] Ax_By
            {| df_len := 2; df_columns := [("ref", [1; 2]); ("k1", [5; 6])] |} _).
  reflexivity.
Defined.

Lemma exact_key_prepared_witness :
  ∃ data, prepare_data 2 2 [(["A"; "B"], bucket_AB)] Ax_By = Return data ∧
    df_len data = df_len bucket_AB ∧
    length (df_columns data) = length Ax_By.
Proof.
  refine (exact_key_prepared 2 [(["A"; "B"], bucket_AB)] Ax_By bucket_AB _ _).
  - reflexivity.
  - intros r Hr.
    apply elem_of_cons in Hr as [->|Hr]; [discriminate |].
    apply elem_of_cons in Hr as [->|Hr]; [discriminate |].
    by apply elem_of_nil in Hr.
Defined.

Definition no_rows : DataFrame string :=
  {| df_len := 0; df_columns := [("ref", []); ("k1", [])] |}.

Lemma empty_table_passed_over_witness :
  process_result 2 2 [(["A"; "B"], frame 0 ["A"; "B"])] (PTuple [1; 10; 20])
                 [(AC, [counted])] AB (v22 true)
  = (v22 true, [], Return [(AC, [counted])]) ∧
  foldM (process_result 2 2 [(["A"; "B"], frame 0 ["A"; "B"])]
                        (PTuple [1; 10; 20]))
        [(AC, [counted])] (AB :: [AB]) (v22 true) =
    foldM (process_result 2 2 [(["A"; "B"], frame 0 ["A"; "B"])]
                          (PTuple [1; 10; 20]))
          [(AC, [counted])] [AB] (v22 true).
Proof.
  refine (empty_table_passed_over (v22 true) 2 2
            [(["A"; "B"], frame 0 ["A"; "B"])] (PTuple [1; 10; 20])
            [(AC, [counted])] AB [AB] no_rows _ _).
  - reflexivity.
  - reflexivity.
Defined.

(** The buckets of the matching of A, B, C and D with [n = 2]. *)
Definition matched2 : odict DatasetKey (DataFrame (string * string)) :=
  [(["A"; "B"], frame 5 ["A"; "B"]);
   (["A"; "C"], frame 5 ["A"; "C"]);
   (["A"; "D"], frame 5 ["A"; "D"])].

Lemma point_result_appended_witness :
  ∃ results',
    process_result 2 2 matched2 (PTuple [4; 11; 21])
                   [(AB, [counted]); (AC, [counted])] AB (v22 true) =
      (v22 true,
       [EvScale prepared "lin_cdf_match" 0]
         ++ [EvMetrics AB (2, 2) prepared (PTuple [4; 11; 21])],
       Return results') ∧
    OD.get AB results' =
      Some (default [] (OD.get AB [(AB, [counted]); (AC, [counted])]) ++ [counted]) ∧
    ∀ key, key ≠ AB →
      OD.get key results' = OD.get key [(AB, [counted]); (AC, [counted])].
Proof.
  refine (point_result_appended (v22 true) 2 2 matched2 (PTuple [4; 11; 21])
            [(AB, [counted]); (AC, [counted])] AB prepared
            [EvScale prepared "lin_cdf_match" 0] prepared n_obs counted
            _ _ _ _ _).
  - reflexivity.
  - discriminate.
  - reflexivity.
  - reflexivity.
  - reflexivity.
Defined.

(** A metrics calculator that raises. *)
Definition failing (data : DataFrame string) (gpi_meta : pyval)
    : outcome (odict string ndarray) :=
  Raise (OtherError "metric").

Lemma metrics_exception_raised_witness :
  process_result 2 2 matched2 (PTuple [4; 11; 21]) [(AB, [counted])] AB
                 (validation [((2, 2), failing)] true) =
    (validation [((2, 2), failing)] true,
     [EvScale prepared "lin_cdf_match" 0]
       ++ [EvMetrics AB (2, 2) prepared (PTuple [4; 11; 21])],
     Raise (OtherError "metric")).
Proof.
  refine (metrics_exception_raised (validation [((2, 2), failing)] true) 2 2
            matched2 (PTuple [4; 11; 21]) [(AB, [counted])] AB prepared
            [EvScale prepared "lin_cdf_match" 0] prepared failing
            (OtherError "metric") _ _ _ _ _).
  - reflexivity.
  - discriminate.
  - reflexivity.
  - reflexivity.
  - reflexivity.
Defined.

(** The registry [{(2, 2): n_obs}] with the scaling reference [sref]. *)
Definition v_scaled_to (sref : string) : Validation :=
  {| data_manager := manager;
     temp_matching := matcher;
     temporal_ref := "A";
     metrics_c := [((2, 2), n_obs)];
     scaling := Some "lin_cdf_match";
     scaling_ref := sref;
     cell_based_jobs := false |}.

Lemma scaling_ref_not_requested_raises_witness :
  process_result 2 2 matched2 (PTuple [1; 10; 20]) [] AB (v_scaled_to "D")
  = (v_scaled_to "D", [], Raise KeyError).
Proof.
  refine (scaling_ref_not_requested_raises (v_scaled_to "D") 2 2 matched2
            (PTuple [1; 10; 20]) [] AB prepared "lin_cdf_match" _ _ _ _).
  - reflexivity.
  - discriminate.
  - reflexivity.
  - intros Hin.
    apply elem_of_cons in Hin as [?|Hin]; [done |].
    apply elem_of_cons in Hin as [?|Hin]; [done |].
    by apply elem_of_nil in Hin.
Defined.

Lemma scale_gets_position_of_scaling_ref_witness :
  (scaling_stage AB prepared (v_scaled_to "B")).1.2
  = [EvScale prepared "lin_cdf_match" 1].
Proof.
  refine (scale_gets_position_of_scaling_ref (v_scaled_to "B") 2 2 matched2 AB
            prepared "lin_cdf_match" 1 ("B", "x") _ _ _ _ _).
  - apply (bool_decide_unpack _). reflexivity.
  - reflexivity.
  - reflexivity.
  - reflexivity.
  - reflexivity.
Defined.

(** Imports whose [scale] raises something other than [ValueError]. *)
Definition imports_broken_scale : Imports := {|
  get_result_names ds ref k := Return (result_names ds ref k);
  scale data method reference_index := Raise (OtherError "scale");
  np_cast dt x := Return x;
|}.

Lemma scale_other_exception_raised_witness :
  @process_result host imports_broken_scale 2 2 matched2 (PTuple [1; 10; 20])
    [] AB (v22 false)
  = (v22 false, [EvScale prepared "lin_cdf_match" 0], Raise (OtherError "scale")).
Proof.
  refine (@scale_other_exception_raised host imports_broken_scale (v22 false)
            2 2 matched2 (PTuple [1; 10; 20]) [] AB prepared "lin_cdf_match"
            "ref" 0 (OtherError "scale") _ _ _ _ _ _ _).
  - reflexivity.
  - discriminate.
  - reflexivity.
  - reflexivity.
  - reflexivity.
  - reflexivity.
  - discriminate.
Defined.

Lemma scale_calls_configured_nonempty_witness :
  (EvScale prepared "lin_cdf_match" 0 ∈ (calc (PNum 1) (v22 true)).1.2) ∧
  (scaling (v22 true) = Some "lin_cdf_match" ∧ df_len prepared ≠ 0).
Proof.
  assert (EvScale prepared "lin_cdf_match" 0 ∈ (calc (PNum 1) (v22 true)).1.2)
    as Hcall.
  { apply (list_elem_of_lookup_2 _ 4). reflexivity. }
  split; [exact Hcall |].
  exact (scale_calls_configured_nonempty (PNum 1) (v22 true) prepared
           "lin_cdf_match" 0 Hcall).
Defined.

Lemma metrics_calls_provenance_witness :
  (EvMetrics AB (2, 2) prepared (PTuple [1; 10; 20])
     ∈ (calc (PNum 1) (v22 true)).1.2) ∧
  ((2, 2) ∈ OD.keys (metrics_c (v22 true)) ∧
   (∃ names,
      get_result_names (ds_dict (data_manager (v22 true)))
                       (temporal_ref (v22 true)) 2 = Return names ∧
      AB ∈ names) ∧
   ∃ df_dict md data,
     temp_matching (v22 true) df_dict (temporal_ref (v22 true)) 2 = Return md ∧
     prepare_data 2 2 md AB = Return data ∧
     df_len data ≠ 0 ∧
     match scaling (v22 true) with
     | None => prepared = data
     | Some method => ∃ idx, scale data method idx = Return prepared
     end).
Proof.
  assert (EvMetrics AB (2, 2) prepared (PTuple [1; 10; 20])
            ∈ (calc (PNum 1) (v22 true)).1.2) as Hcall.
  { apply (list_elem_of_lookup_2 _ 5). reflexivity. }
  split; [exact Hcall |].
  exact (metrics_calls_provenance (PNum 1) (v22 true) AB (2, 2) prepared
           (PTuple [1; 10; 20]) Hcall).
Defined.

Lemma short_point_job_raises_witness :
  calc (PTuple [1; 10]) (v22 false) = (v22 false, [], Raise IndexError).
Proof.
  refine (short_point_job_raises (v22 false) [1; 10] _ _).
  - reflexivity.
  - simpl. lia.
Defined.

(** The registry [{(2, 2): n_obs}], cell-based, without a reference grid. *)
Definition v_no_grid : Validation :=
  {| data_manager := {| reference_grid := None;
                        ds_dict := ["A"; "B"; "C"; "D"];
                        get_data := read |};
     temp_matching := matcher;
     temporal_ref := "A";
     metrics_c := [((2, 2), n_obs)];
     scaling := Some "lin_cdf_match";
     scaling_ref := "A";
     cell_based_jobs := true |}.

Lemma grid_failure_raises_witness :
  (reference_grid (data_manager v_no_grid) = None →
   calc (PNum 1) v_no_grid = (v_no_grid, [], Raise AttributeError)) ∧
  (∀ grid e, reference_grid (data_manager v_no_grid) = Some grid →
     grid_points_for_cell grid (PNum 1) = Raise e →
     calc (PNum 1) v_no_grid = (v_no_grid, [EvGridPoints (PNum 1)], Raise e)).
Proof.
  refine (grid_failure_raises v_no_grid (PNum 1) _). reflexivity.
Defined.

Example no_grid_raises :
  calc (PNum 1) v_no_grid = (v_no_grid, [], Raise AttributeError).
Proof. reflexivity. Qed.

Example grid_exception_raised :
  (calc (PTuple [1; 10; 20]) (v22 true)).1.2 = [EvGridPoints (PTuple [1; 10; 20])] ∧
  (calc (PTuple [1; 10; 20]) (v22 true)).2 = Raise TypeError.
Proof. by split. Qed.

Lemma points_read_once_in_order_witness :
  filter is_get_data (calc (PNum 2) (v22 true)).1.2 =
    ((λ p : nat * nat * nat, EvGetData p.1.1 p.1.2 p.2)
       <$> zip3 [1; 3; 4] [10; 11; 12] [20; 21; 22]).
Proof.
  refine (points_read_once_in_order (PNum 2) (v22 true) [EvGridPoints (PNum 2)]
            [1; 3; 4] [10; 11; 12] [20; 21; 22] _ _).
  - reflexivity.
  - exact I.
Defined.

Definition compact_cell_1 : odict ResultName (odict string ndarray) :=
  [(AB, [("n_obs", {| arr_dtype := "int64"; arr_elems := [5; 5] |})]);
   (AC, [("n_obs", {| arr_dtype := "int64"; arr_elems := [5; 5] |})]);
   ([("A", "x"); ("D", "x")],
    [("n_obs", {| arr_dtype := "int64"; arr_elems := [5; 5] |})])].

Lemma compact_keys_are_called_names_witness :
  OD.get [("B", "x"); ("C", "x")] compact_cell_1 = None ↔
  metrics_returns (v22 true) [("B", "x"); ("C", "x")]
                  (calc (PNum 1) (v22 true)).1.2 = [].
Proof.
  refine (compact_keys_are_called_names (PNum 1) (v22 true) (v22 true)
            (calc (PNum 1) (v22 true)).1.2 compact_cell_1
            [("B", "x"); ("C", "x")] _).
  reflexivity.
Defined.

Lemma compact_arrays_length_witness :
  length (arr_elems {| arr_dtype := "int64"; arr_elems := [5; 5] |}) =
  length (metrics_returns (v22 true) AB (calc (PNum 1) (v22 true)).1.2).
Proof.
  refine (compact_arrays_length (PNum 1) (v22 true) (v22 true)
            (calc (PNum 1) (v22 true)).1.2 compact_cell_1 AB
            [("n_obs", {| arr_dtype := "int64"; arr_elems := [5; 5] |})]
            "n_obs" {| arr_dtype := "int64"; arr_elems := [5; 5] |} _ _ _).
  - reflexivity.
  - reflexivity.
  - reflexivity.
Defined.

(** A metrics calculator whose value has elements at point 1 only. *)
Definition hollow_after_1 (data : DataFrame string) (gpi_meta : pyval)
    : outcome (odict string ndarray) :=
  match gpi_meta with
  | PTuple (1 :: _) => Return counted
  | _ => Return [("n_obs", {| arr_dtype := "int64"; arr_elems := [] |})]
  end.

Definition hollow : odict string ndarray :=
  [("n_obs", {| arr_dtype := "int64"; arr_elems := [] |})].

Lemma empty_value_raises_witness :
  is_raise (calc (PNum 1) (validation [((2, 2), hollow_after_1)] true)).2.
Proof.
  refine (empty_value_raises (PNum 1)
            (validation [((2, 2), hollow_after_1)] true)
            (validation [((2, 2), hollow_after_1)] true)
            (collect (PNum 1) (validation [((2, 2), hollow_after_1)] true)).1.2
            [(AB, [counted; hollow]); (AC, [counted; hollow]);
             ([("A", "x"); ("D", "x")], [counted; hollow])]
            AB [counted; hollow] counted hollow "n_obs"
            {| arr_dtype := "int64"; arr_elems := [] |} _ _ _ _ _ _ _).
  - reflexivity.
  - reflexivity.
  - reflexivity.
  - discriminate.
  - right. left.
  - reflexivity.
  - reflexivity.
Defined.

Example empty_value_raises_IndexError :
  (calc (PNum 1) (validation [((2, 2), hollow_after_1)] true)).2
  = Raise IndexError.
Proof. reflexivity. Qed.

(** The enumeration of a grid with the cells 0 and 1 and, as what
    [get_grid_points()] returns, three items. *)
Definition grid_jobs : GridJobs :=
  {| get_cells := Return [PNum 0; PNum 1];
     get_grid_points := Return [1; 10; 20] |}.

Lemma point_jobs_not_processed_witness :
  (∃ x, PTuple [10] = PTuple [x]) ∧
  calc (PTuple [10]) (v22 false) = (v22 false, [], Raise IndexError).
Proof.
  refine (point_jobs_not_processed grid_jobs (v22 false)
            [PTuple [1]; PTuple [10]; PTuple [20]] (PTuple [10]) _ _ _).
  - reflexivity.
  - reflexivity.
  - right. left.
Defined.

Lemma select_data_last_witness :
  [["A"; "B"; "C"]; ["A"; "B"; "D"]; ["A"; "C"; "D"]] =
    filter (λ key : list string, key !! 0 = dskey_of AB !! 0) (OD.keys matched3) ∧
  select_data 3 2 (dskey_of AB) matched3 =
    match last [["A"; "B"; "C"]; ["A"; "B"; "D"]; ["A"; "C"; "D"]] with
    | None => Raise KeyError
    | Some found_key => OD.getitem found_key matched3
    end.
Proof.
  refine (select_data_last 3 2 (dskey_of AB) matched3
            [["A"; "B"; "C"]; ["A"; "B"; "D"]; ["A"; "C"; "D"]] _ _).
  - discriminate.
  - reflexivity.
Defined.

Lemma relabel_by_last_position_witness :
  ∃ j r', [("A", "x"); ("B", "x"); ("A", "y")] !! j = Some r' ∧
    r'.1 = ("A", "x").1 ∧
    (∀ j' r'', j < j' →
       [("A", "x"); ("B", "x"); ("A", "y")] !! j' = Some r'' →
       r''.1 ≠ ("A", "x").1) ∧
    (df_columns {| df_len := 2;
                   df_columns := [("k2", [1; 2]); ("k1", [3; 4]); ("k2", [7; 8])] |}).*1
      !! 0 = Some (if decide (j = 0) then "ref" else "k" +:+ pretty j).
Proof.
  refine (relabel_by_last_position 3 3
            [(["A"; "B"; "A"],
              {| df_len := 2;
                 df_columns := [(("A", "x"), [1; 2]); (("B", "x"), [3; 4]);
                                (("A", "y"), [7; 8])] |})]
            [("A", "x"); ("B", "x"); ("A", "y")] _ 0 ("A", "x") _ _).
  - reflexivity.
  - reflexivity.
Defined.

End MoreCases.

(** * Grid point by grid point, in the concrete setting *)

Module PointCases.
Import Scenario Cases MoreCases.

Lemma metrics_calls_get_meta_of_point_witness :
  ∃ segments,
    (calc (PNum 1) (v22 true)).1.2 = [EvGridPoints (PNum 1)] ++ concat segments ∧
    Forall no_metrics [EvGridPoints (PNum 1)] ∧
    (is_return (calc (PNum 1) (v22 true)).2 →
       length segments = length (zip3 [1; 4] [10; 11] [20; 21])) ∧
    Forall2 (segment_of (v22 true) (PNum 1))
            (take (length segments) (zip3 [1; 4] [10; 11] [20; 21])) segments.
Proof.
  refine (metrics_calls_get_meta_of_point (PNum 1) (v22 true)
            [EvGridPoints (PNum 1)] [1; 4] [10; 11] [20; 21] _).
  reflexivity.
Defined.

(** The calls of the second grid point of cell 1 carry its own tuple. *)
Example second_point_meta :
  segment_of (v22 true) (PNum 1) (4, 11, 21)
    (drop 10 (calc (PNum 1) (v22 true)).1.2) ∧
  (calc (PNum 1) (v22 true)).1.2 !! 14
    = Some (EvMetrics AB (2, 2) prepared (PTuple [4; 11; 21])).
Proof.
  split; [| reflexivity]. eexists. split; [reflexivity |].
  repeat constructor.
Qed.

(** Datasets A, B and C at every grid point, and the registry
    [{(2, 2): n_obs, (3, 2): n_obs}]: both keys ask for the result names of
    two columns. *)
Definition v22_32 : Validation :=
  {| data_manager :=
       {| reference_grid := None;
          ds_dict := ["A"; "B"; "C"];
          get_data gpi lon lat := Return [("A", 5); ("B", 5); ("C", 5)] |};
     temp_matching := matcher;
     temporal_ref := "A";
     metrics_c := [((2, 2), n_obs); ((3, 2), n_obs)];
     scaling := Some "lin_cdf_match";
     scaling_ref := "A";
     cell_based_jobs := false |}.

(** C6, as the claim has it, fails: the job has the single grid point
    (1, 10, 20), which is read once, and the arrays have two elements, one
    for each of the two keys that request the result name. *)
Lemma one_point_two_entries :
  (process_axes (PTuple [1; 10; 20]) v22_32).2 = Return ([1], [10], [20]) ∧
  filter is_get_data (calc (PTuple [1; 10; 20]) v22_32).1.2 = [EvGetData 1 10 20] ∧
  (calc (PTuple [1; 10; 20]) v22_32).2 =
    Return [(AB, [("n_obs", {| arr_dtype := "int64"; arr_elems := [5; 5] |})]);
            (AC, [("n_obs", {| arr_dtype := "int64"; arr_elems := [5; 5] |})])] ∧
  requests v22_32 AB = 2.
Proof. by split_and!. Qed.

Lemma compact_arrays_point_by_point_witness :
  ∃ per_point : list (list (odict string ndarray)),
    Forall2 (λ p returned,
               (∃ a, returned =
                  metrics_returns (v22 true) AB
                    (process_point (PNum 1) a p (v22 true)).1.2) ∧
               length returned ≤ requests (v22 true) AB)
            (zip3 [1; 4] [10; 11] [20; 21]) per_point ∧
    ∃ fields, OD.get AB compact_cell_1 = Some fields ∧
      ∀ field value, OD.get field counted = Some value →
        ∃ array, OD.get field fields = Some array ∧
          arr_dtype array = arr_dtype value ∧
          Forall2 (field_of field (arr_dtype value))
                  (concat per_point) (arr_elems array).
Proof.
  refine (compact_arrays_point_by_point (PNum 1) (v22 true) (v22 true)
            (calc (PNum 1) (v22 true)).1.2 compact_cell_1 AB counted
            [EvGridPoints (PNum 1)] [1; 4] [10; 11] [20; 21] _ _ _).
  - reflexivity.
  - reflexivity.
  - reflexivity.
Defined.

(** In the setting of the witness a result name is requested once. *)
Example requested_once : requests (v22 true) AB = 1.
Proof. reflexivity. Qed.

End PointCases.

(** * Two calls in a row, in the concrete setting *)

Module StoreCases.
Import Scenario Cases MoreCases.

(** The DataFrames of the matcher: A with B and A with C, five rows each. *)
Definition matched_frames : list frame_obj :=
  [MultiCols (frame 5 ["A"; "B"]); MultiCols (frame 5 ["A"; "C"])].

(** The matcher returns the same two objects at every call. *)
Definition matcher_refs (df_dict : odict string nat) (ref : string) (n : nat)
    : outcome (odict DatasetKey nat) :=
  match n with
  | 2 => Return [(["A"; "B"], 0); (["A"; "C"], 1)]
  | _ => Return []
  end.

(** The same matcher, by value. *)
Definition matcher_values (df_dict : odict string nat) (ref : string) (n : nat)
    : outcome (odict DatasetKey (DataFrame (string * string))) :=
  match n with
  | 2 => Return [(["A"; "B"], frame 5 ["A"; "B"]); (["A"; "C"], frame 5 ["A"; "C"])]
  | _ => Return []
  end.

Definition v_store : Validation :=
  {| data_manager :=
       {| reference_grid := None;
          ds_dict := ["A"; "B"; "C"];
          get_data gpi lon lat := Return [("A", 5); ("B", 5); ("C", 5)] |};
     temp_matching := matcher_values;
     temporal_ref := "A";
     metrics_c := [((2, 2), n_obs)];
     scaling := Some "lin_cdf_match";
     scaling_ref := "A";
     cell_based_jobs := false |}.


(** The first call leaves the two DataFrames of the matcher as they were
    and two new ones behind them, with flat and relabelled columns. *)
Example store_after_first_call :
  (scalc matcher_refs (PTuple [1; 10; 20]) matched_frames v_store).1.1.1 =
    matched_frames ++
    [FlatCols {| df_len := 5; df_columns := [("ref", []); ("k1", [])] |};
     FlatCols {| df_len := 5; df_columns := [("ref", []); ("k1", [])] |}] ∧
  (scalc matcher_refs (PTuple [1; 10; 20]) matched_frames v_store).2 =
    Return [(AB, [("n_obs", {| arr_dtype := "int64"; arr_elems := [5] |})]);
            (AC, [("n_obs", {| arr_dtype := "int64"; arr_elems := [5] |})])].
Proof. by split. Qed.

(** Were the level dropped on the object of the matcher itself, the next
    call would find flat columns there, and raise. *)
Example flat_columns_in_store_raise :
  (scalc matcher_refs (PTuple [1; 10; 20])
         [FlatCols (droplevel_1 (frame 5 ["A"; "B"])); MultiCols (frame 5 ["A"; "C"])]
         v_store).2 = Raise KeyError.
Proof. reflexivity. Qed.

End StoreCases.
